(** * Solo machine light client: header verification and state update

    A shallow embedding of
    [modules/light-clients/06-solomachine/types/update.go]
    ([CheckHeaderAndUpdateState], [VerifyHeader], [update]) together with
    the properties of the header-update and misbehaviour paths.

    Go values are modelled as follows.
    - [uint64] fields are integers in [Z]; the only arithmetic on them, the
      increment in [update], wraps around at [2^64].
    - A pointer is an optional address ([None] is [nil]); the cells that
      pointers designate live in a store made of two finite maps, one per
      pointee type.  Dereferencing [nil] or a dangling address panics.
    - A Go [error] result is an optional error value ([None] is [nil]).
    - A function of the package is a computation over the store that either
      panics or returns a value and the new store.  The store also carries
      the list of calls made to the collaborators (codec, key extraction,
      signature primitive), most recent first. *)

From stdpp Require Import base option strings pretty gmap fin_maps.
From Stdlib Require Import ZArith Lia.

Local Open Scope Z_scope.

(** ** Data model *)

Abbreviation bytes := (list Byte.byte).

#[global] Instance byte_eq_dec : EqDecision Byte.byte := Byte.byte_eq_dec.

(** Addresses of heap cells; a pointer may be [nil]. *)
Definition address := positive.
Definition pointer := option address.

(** [codectypes.Any]: an opaque packed value, here the public key. *)
Record Any := { TypeUrl : string; Value : bytes }.

(** Modelled from the spec: the struct declarations of the package are
    generated code that is not part of the source file; the fields are the
    ones the source reads and writes ([PublicKey], [Diversifier],
    [Timestamp]), with the types of section 3 of the specification. *)
Module ConsensusState.
Record t := mk {
  PublicKey : option Any;
  Diversifier : string;
  Timestamp : Z
}.
End ConsensusState.

(** Modelled from the spec: [ClientState] is a sequence counter and a
    pointer to the current consensus state. *)
Module ClientState.
Record t := mk {
  Sequence : Z;
  ConsensusState : pointer
}.
End ClientState.

(** Modelled from the spec: a single-update header. *)
Module Header.
Record t := mk {
  Sequence : Z;
  Timestamp : Z;
  Signature : bytes;
  NewPublicKey : option Any;
  NewDiversifier : string
}.
End Header.

(** Modelled from the spec: one signed statement of a misbehaviour proof,
    "analogous to Header-signed-data (sequence, timestamp, diversifier,
    signed payload)", with its signature. *)
Module SignatureAndData.
Record t := mk {
  Sequence : Z;
  Timestamp : Z;
  Diversifier : string;
  Data : bytes;
  Signature : bytes
}.
End SignatureAndData.

(** Modelled from the spec: the misbehaviour proof, two signed statements. *)
Module DuplicateSignatures.
Record t := mk {
  SignatureOne : SignatureAndData.t;
  SignatureTwo : SignatureAndData.t
}.
End DuplicateSignatures.

(** A value of interface type [exported.Header]: the dynamic type is
    [*Header], [*DuplicateSignatures], some other implementation, or the
    interface value is [nil].  The pointers themselves may be [nil]. *)
Inductive exported_Header :=
  | HeaderPtr (h : option Header.t)
  | DuplicateSignaturesPtr (d : option DuplicateSignatures.t)
  | OtherHeader (dynamic_type : string)
  | NilHeader.

(** ** Errors *)

(** Registered root errors.  The first three are the ones the source names;
    [foreign] stands for any other root error a collaborator may return. *)
Inductive registered :=
  | clienttypes_ErrInvalidHeader
  | ErrInvalidHeader
  | sdkerrors_ErrInvalidType
  | ErrInvalidSignature
  | foreign (name : string).

(** An error is a root error under a chain of [sdkerrors.Wrap]s. *)
Inductive error :=
  | root_error (r : registered)
  | wrappedError (parent : error) (msg : string).

(** [sdkerrors.Wrap(err, description)] for a non-nil [err]. *)
Definition Wrap (err : error) (description : string) : error :=
  wrappedError err description.

(** The root of a chain of wraps, what [errors.Is] compares with. *)
Fixpoint Cause (err : error) : registered :=
  match err with
  | root_error r => r
  | wrappedError parent _ => Cause parent
  end.

(** A Go pair [(value, error)] as returned by the collaborators. *)
Inductive result (A : Type) :=
  | Ok (a : A)
  | Err (err : error).
Arguments Ok {A} a.
Arguments Err {A} err.

(** ** The store and the computations over it *)

(** Calls to the collaborators, recorded in the order they are made. *)
Inductive Call :=
  | CallHeaderSignBytes
  | CallMisbehaviourSignBytes
  | CallUnmarshalSignatureData
  | CallGetPubKey
  | CallVerifySignature.

Record World := mkWorld {
  clientStates : gmap address ClientState.t;
  consensusStates : gmap address ConsensusState.t;
  calls : list Call
}.

Inductive Outcome (A : Type) :=
  | Panic
  | Returns (a : A) (w : World).
Arguments Panic {A}.
Arguments Returns {A} a w.

Definition M (A : Type) : Type := World → Outcome A.

#[global] Instance M_ret : MRet M := λ A a w, Returns a w.
#[global] Instance M_bind : MBind M := λ A B f m w,
  match m w with
  | Panic => Panic
  | Returns a w' => f a w'
  end.

Definition panic {A} : M A := λ _, Panic.

(** Dereference a pointer to an immutable argument. *)
Definition deref {A} (p : option A) : M A :=
  match p with
  | Some a => mret a
  | None => panic
  end.

Definition load_consensus (p : pointer) : M ConsensusState.t := λ w,
  match p with
  | Some a =>
      match consensusStates w !! a with
      | Some c => Returns c w
      | None => Panic
      end
  | None => Panic
  end.

Definition load_client (p : pointer) : M ClientState.t := λ w,
  match p with
  | Some a =>
      match clientStates w !! a with
      | Some c => Returns c w
      | None => Panic
      end
  | None => Panic
  end.

Definition store_client (p : pointer) (c : ClientState.t) : M unit := λ w,
  match p with
  | Some a =>
      match clientStates w !! a with
      | Some _ =>
          Returns tt (mkWorld (<[a := c]> (clientStates w)) (consensusStates w) (calls w))
      | None => Panic
      end
  | None => Panic
  end.

(** [&ConsensusState{...}]: a new cell at an unused address. *)
Definition alloc_consensus (c : ConsensusState.t) : M pointer := λ w,
  let a := fresh (dom (consensusStates w)) in
  Returns (Some a) (mkWorld (clientStates w) (<[a := c]> (consensusStates w)) (calls w)).

(** [&cs] for a local variable [cs]: the variable is a cell of its own,
    at an address no caller holds. *)
Definition alloc_client (c : ClientState.t) : M pointer := λ w,
  let a := fresh (dom (clientStates w)) in
  Returns (Some a) (mkWorld (<[a := c]> (clientStates w)) (consensusStates w) (calls w)).

(** A call to a collaborator: the call is recorded, the store is not
    touched. *)
Definition call {A} (c : Call) (r : A) : M A := λ w,
  Returns r (mkWorld (clientStates w) (consensusStates w) (c :: calls w)).

(** The world [w] after the calls [l] (most recent first) have been
    recorded. *)
Definition with_calls (l : list Call) (w : World) : World :=
  mkWorld (clientStates w) (consensusStates w) (l ++ calls w).

(** ** Relations between stores *)

(** Both kinds of cells are the same in [w] and [w']: nothing was written
    and nothing was allocated.  The record of calls is not compared. *)
Definition same_store (w w' : World) : Prop :=
  clientStates w = clientStates w' ∧ consensusStates w = consensusStates w'.

(** Every cell of [w] is still there in [w'], with the value it had. *)
Definition preserved (w w' : World) : Prop :=
  (∀ a c, clientStates w !! a = Some c → clientStates w' !! a = Some c)
  ∧ (∀ a c, consensusStates w !! a = Some c → consensusStates w' !! a = Some c).

(** Two outcomes agree up to the record of calls. *)
Definition agree {A} (o o' : Outcome A) : Prop :=
  match o, o' with
  | Panic, Panic => True
  | Returns a w, Returns a' w' => a = a' ∧ same_store w w'
  | _, _ => False
  end.

(** A computation whose result and effect on the cells do not depend on the
    record of calls. *)
Definition call_blind {A} (m : M A) : Prop :=
  ∀ w w', same_store w w' → agree (m w) (m w').

(** The outcome [o] of a run from [w] is a rejection with error [e]: no new
    state is returned and the cells are as they were. *)
Definition rejects_with (o : Outcome (pointer * pointer * option error))
    (w : World) (e : error) : Prop :=
  ∃ w', o = Returns (None, None, Some e) w' ∧ same_store w w'.

(** ** Collaborators

    The codec, the sign-bytes constructors, the key extraction and the
    signature primitive are outside the source file.  They are pure
    functions, taken as an interface; [error_Error] is the [Error()] method
    of error values and [Sprint] the [%s] rendering of a header value. *)
Class Collaborators := {
  sdk_Context : Type;
  sdk_KVStore : Type;
  BinaryCodec : Type;
  PubKey : Type;
  SignatureData : Type;
  HeaderSignBytes : BinaryCodec → Header.t → result bytes;
  MisbehaviourSignBytes : BinaryCodec → Z → Z → string → bytes → result bytes;
  UnmarshalSignatureData : BinaryCodec → bytes → result SignatureData;
  GetPubKey : ConsensusState.t → result PubKey;
  VerifySignature : PubKey → bytes → SignatureData → option error;
  error_Error : error → string;
  Sprint : exported_Header → string
}.

(** ** The program *)

Definition wrap64 (x : Z) : Z := x mod 2 ^ 64.

(** [%d] of an unsigned integer. *)
Definition Sprint_d (x : Z) : string := pretty x.

Definition sequence_mismatch (header_seq cs_seq : Z) : error :=
  Wrap (root_error clienttypes_ErrInvalidHeader)
    ("header sequence does not match the client state sequence ("
       +:+ Sprint_d header_seq +:+ " != " +:+ Sprint_d cs_seq +:+ ")").

Definition timestamp_regression (header_ts cs_ts : Z) : error :=
  Wrap (root_error clienttypes_ErrInvalidHeader)
    ("header timestamp is less than to the consensus state timestamp ("
       +:+ Sprint_d header_ts +:+ " < " +:+ Sprint_d cs_ts +:+ ")").

Section Program.
Context `{Collaborators}.

Definition unexpected_type (header : exported_Header) : error :=
  Wrap (root_error sdkerrors_ErrInvalidType)
    ("unexpected type for header: " +:+ Sprint header).

(** Modelled from the spec: [verifySignatureAndData] is defined in another
    file of the package.  Section 4.4, steps 1 and 2: the signature is
    verified against the current trusted public key, over its own claimed
    sign-bytes (sequence, timestamp, diversifier, signed payload), with
    the primitive and the construction of the header path; any failure is
    reported as [ErrInvalidSignature]. *)
Definition verifySignatureAndData (cdc : BinaryCodec) (clientState : ClientState.t)
    (misbehaviour : DuplicateSignatures.t) (sigAndData : SignatureAndData.t)
    : M (option error) :=
  let invalid err := Some (Wrap (root_error ErrInvalidSignature) (error_Error err)) in
  r ← call CallMisbehaviourSignBytes
        (MisbehaviourSignBytes cdc
           (SignatureAndData.Sequence sigAndData)
           (SignatureAndData.Timestamp sigAndData)
           (SignatureAndData.Diversifier sigAndData)
           (SignatureAndData.Data sigAndData));
  match r with
  | Err err => mret (invalid err)
  | Ok data =>
      r ← call CallUnmarshalSignatureData
            (UnmarshalSignatureData cdc (SignatureAndData.Signature sigAndData));
      match r with
      | Err err => mret (invalid err)
      | Ok sigData =>
          consensusState ← load_consensus (ClientState.ConsensusState clientState);
          r ← call CallGetPubKey (GetPubKey consensusState);
          match r with
          | Err err => mret (invalid err)
          | Ok publicKey =>
              r ← call CallVerifySignature (VerifySignature publicKey data sigData);
              match r with
              | Some err => mret (invalid err)
              | None => mret None
              end
          end
      end
  end.

(** The signature stage of the [*Header] case: sign-bytes, decoding of the
    signature, extraction of the registered key, verification. *)
Definition verifyHeaderSignature (cs : ClientState.t) (cdc : BinaryCodec)
    (header : Header.t) : M (option error) :=
  r ← call CallHeaderSignBytes (HeaderSignBytes cdc header);
  match r with
  | Err err => mret (Some err)
  | Ok data =>
      r ← call CallUnmarshalSignatureData
            (UnmarshalSignatureData cdc (Header.Signature header));
      match r with
      | Err err => mret (Some err)
      | Ok sigData =>
          consensusState ← load_consensus (ClientState.ConsensusState cs);
          r ← call CallGetPubKey (GetPubKey consensusState);
          match r with
          | Err err => mret (Some err)
          | Ok publicKey =>
              r ← call CallVerifySignature (VerifySignature publicKey data sigData);
              match r with
              | Some err =>
                  mret (Some (Wrap (root_error ErrInvalidHeader) (error_Error err)))
              | None => mret None
              end
          end
      end
  end.

(** [VerifyHeader] checks if the Solo Machine update signature is valid. *)
Definition VerifyHeader (cs : ClientState.t) (cdc : BinaryCodec)
    (header : exported_Header) : M (option error) :=
  match header with
  | HeaderPtr header =>
      header ← deref header;
      if negb (Header.Sequence header =? ClientState.Sequence cs) then
        mret (Some (sequence_mismatch (Header.Sequence header) (ClientState.Sequence cs)))
      else
        consensusState ← load_consensus (ClientState.ConsensusState cs);
        if Header.Timestamp header <? ConsensusState.Timestamp consensusState then
          mret (Some (timestamp_regression (Header.Timestamp header)
                        (ConsensusState.Timestamp consensusState)))
        else
          verifyHeaderSignature cs cdc header
  | DuplicateSignaturesPtr header =>
      header ← deref header;
      err ← verifySignatureAndData cdc cs header (DuplicateSignatures.SignatureOne header);
      match err with
      | Some err => mret (Some (Wrap err "failed to verify signature one"))
      | None =>
          err ← verifySignatureAndData cdc cs header (DuplicateSignatures.SignatureTwo header);
          match err with
          | Some err => mret (Some (Wrap err "failed to verify signature two"))
          | None => mret None
          end
      end
  | _ => mret (Some (unexpected_type header))
  end.

(** [update] the consensus state to the new public key and an incremented
    sequence.  It writes through [clientState]. *)
Definition update (clientState : pointer) (header : option Header.t)
    : M (pointer * pointer) :=
  h ← deref header;
  consensusState ← alloc_consensus
    (ConsensusState.mk (Header.NewPublicKey h) (Header.NewDiversifier h)
       (Header.Timestamp h));
  c ← load_client clientState;
  store_client clientState
    (ClientState.mk (wrap64 (ClientState.Sequence c + 1)) (ClientState.ConsensusState c));;
  c ← load_client clientState;
  store_client clientState (ClientState.mk (ClientState.Sequence c) consensusState);;
  mret (clientState, consensusState).

(** [CheckHeaderAndUpdateState] checks if the provided header is valid and
    updates the consensus state if appropriate.  The receiver [cs] is
    passed by value: it is the callee's own copy. *)
Definition CheckHeaderAndUpdateState (cs : ClientState.t)
    (ctx : sdk_Context) (cdc : BinaryCodec) (clientStore : sdk_KVStore)
    (header : exported_Header) : M (pointer * pointer * option error) :=
  err ← VerifyHeader cs cdc header;
  match err with
  | Some err => mret (None, None, Some err)
  | None =>
      match header with
      | HeaderPtr h =>
          cs_addr ← alloc_client cs;
          '(clientState, consensusState) ← update cs_addr h;
          mret (clientState, consensusState, None)
      | _ => mret (None, None, None)
      end
  end.

(** Whether a signed statement of a misbehaviour proof verifies under the
    key registered in the consensus state [c]: its sign-bytes can be
    built, its signature decodes, the key can be extracted and the
    primitive accepts.  A malformed statement does not verify. *)
Definition statement_verifies (cdc : BinaryCodec) (c : ConsensusState.t)
    (sd : SignatureAndData.t) : bool :=
  match MisbehaviourSignBytes cdc (SignatureAndData.Sequence sd)
          (SignatureAndData.Timestamp sd) (SignatureAndData.Diversifier sd)
          (SignatureAndData.Data sd) with
  | Err _ => false
  | Ok data =>
      match UnmarshalSignatureData cdc (SignatureAndData.Signature sd) with
      | Err _ => false
      | Ok sigData =>
          match GetPubKey c with
          | Err _ => false
          | Ok publicKey =>
              match VerifySignature publicKey data sigData with
              | Some _ => false
              | None => true
              end
          end
      end
  end.

End Program.

(** ** A concrete set of collaborators

    A toy scheme used to run the program on concrete inputs: a key is the
    packed value of the registered [Any], the sign-bytes of a header are the
    packed value of the proposed key, a signature blob decodes to itself
    unless it is empty, and the valid signature of [data] under [key] is
    [key ++ data]. *)
Module Toy.

Fixpoint Error (err : error) : string :=
  match err with
  | root_error clienttypes_ErrInvalidHeader => "invalid client header"
  | root_error ErrInvalidHeader => "invalid header"
  | root_error sdkerrors_ErrInvalidType => "invalid type"
  | root_error ErrInvalidSignature => "invalid signature"
  | root_error (foreign name) => name
  | wrappedError parent msg => msg +:+ ": " +:+ Error parent
  end.

Definition signBytes (k : option Any) : bytes :=
  match k with
  | Some a => Value a
  | None => []
  end.

Definition unmarshal (b : bytes) : result bytes :=
  match b with
  | [] => Err (root_error (foreign "failed to unmarshal proof"))
  | _ => Ok b
  end.

Definition getPubKey (c : ConsensusState.t) : result bytes :=
  match ConsensusState.PublicKey c with
  | Some a => Ok (Value a)
  | None => Err (root_error (foreign "consensus state PublicKey cannot be nil"))
  end.

Definition verify (key data sig : bytes) : option error :=
  if decide (sig = key ++ data) then None
  else Some (root_error (foreign "signature verification failed")).

Definition sprint (h : exported_Header) : string :=
  match h with
  | HeaderPtr _ => "*types.Header"
  | DuplicateSignaturesPtr _ => "*types.DuplicateSignatures"
  | OtherHeader dynamic_type => dynamic_type
  | NilHeader => "%!s(<nil>)"
  end.

Definition collaborators : Collaborators := {|
  sdk_Context := unit;
  sdk_KVStore := unit;
  BinaryCodec := unit;
  PubKey := bytes;
  SignatureData := bytes;
  HeaderSignBytes := λ _ h, Ok (signBytes (Header.NewPublicKey h));
  MisbehaviourSignBytes := λ _ _ _ _ data, Ok data;
  UnmarshalSignatureData := λ _ b, unmarshal b;
  GetPubKey := getPubKey;
  VerifySignature := verify;
  error_Error := Error;
  Sprint := sprint
|}.

Definition b1 : Byte.byte := Byte.x01.
Definition b2 : Byte.byte := Byte.x02.
Definition b3 : Byte.byte := Byte.x03.

Definition key1 : Any := {| TypeUrl := "/cosmos.crypto.secp256k1.PubKey"; Value := [b1] |}.
Definition key2 : Any := {| TypeUrl := "/cosmos.crypto.secp256k1.PubKey"; Value := [b2] |}.

(** The trusted consensus state sits at address 1; the caller keeps its
    client state, with sequence 5, at address 1 of the client cells. *)
Definition consensus0 : ConsensusState.t := ConsensusState.mk (Some key1) "div" 100.
Definition client0 : ClientState.t := ClientState.mk 5 (Some 1%positive).
Definition world0 : World :=
  mkWorld {[ 1%positive := client0 ]} {[ 1%positive := consensus0 ]} [].

(** A header for sequence [s] and time [t] that proposes [key2], signed
    with the blob [sig]; [b1; b2] is the valid signature under [key1]. *)
Definition header (s t : Z) (sig : bytes) : Header.t :=
  Header.mk s t sig (Some key2) "div2".
Definition good_header : Header.t := header 5 100 [b1; b2].

(** A signed statement over [data]; [b1 :: data] is its valid signature. *)
Definition statement (data sig : bytes) : SignatureAndData.t :=
  SignatureAndData.mk 5 100 "div" data sig.

(** A client at the last sequence number. *)
Definition client_max : ClientState.t := ClientState.mk (2 ^ 64 - 1) (Some 1%positive).
Definition header_max : Header.t := header (2 ^ 64 - 1) 100 [b1; b2].

Definition world_max : World :=
  mkWorld {[ 1%positive := client_max ]} {[ 1%positive := consensus0 ]} [].

(** Headers that fail one check each. *)
Definition stale_header : Header.t := header 4 99 [b2].
Definition future_header : Header.t := header 6 100 [b1; b2].
Definition old_header : Header.t := header 5 99 [b2].
Definition undecodable_header : Header.t := header 5 100 [].
Definition forged_header : Header.t := header 5 100 [b2; b2].

(** The calls of a complete signature stage, and of one that stops at the
    decoding of the signature. *)
Definition stage_calls : list Call :=
  [CallVerifySignature; CallGetPubKey; CallUnmarshalSignatureData; CallHeaderSignBytes].
Definition world0_checked : World :=
  mkWorld (clientStates world0) (consensusStates world0) stage_calls.
Definition world0_undecoded : World :=
  mkWorld (clientStates world0) (consensusStates world0)
    [CallUnmarshalSignatureData; CallHeaderSignBytes].

(** Misbehaviour proofs: two valid signatures over distinct payloads, the
    same valid statement twice, and proofs with one forged signature. *)
Definition equivocation : DuplicateSignatures.t :=
  DuplicateSignatures.mk (statement [b3] [b1; b3]) (statement [b2] [b1; b2]).
Definition twice_the_same : DuplicateSignatures.t :=
  DuplicateSignatures.mk (statement [b3] [b1; b3]) (statement [b3] [b1; b3]).
Definition forged_one : DuplicateSignatures.t :=
  DuplicateSignatures.mk (statement [b3] [b2; b3]) (statement [b2] [b1; b2]).
Definition forged_two : DuplicateSignatures.t :=
  DuplicateSignatures.mk (statement [b3] [b1; b3]) (statement [b2] [b2; b2]).

Definition statement_calls : list Call :=
  [CallVerifySignature; CallGetPubKey; CallUnmarshalSignatureData;
   CallMisbehaviourSignBytes].
Definition world0_proved : World :=
  mkWorld (clientStates world0) (consensusStates world0)
    (statement_calls ++ statement_calls).

(** The world after [good_header] has been accepted for [client0]: the new
    client state and the new consensus state both sit at address 2. *)
Definition client1 : ClientState.t := ClientState.mk 6 (Some 2%positive).
Definition consensus1 : ConsensusState.t := ConsensusState.mk (Some key2) "div2" 100.
Definition world1 : World :=
  mkWorld (<[ 2%positive := client1 ]> (clientStates world0))
    (<[ 2%positive := consensus1 ]> (consensusStates world0)) stage_calls.

(** The header after [good_header]: it hands the authority back to [key1]
    and is signed with [key2]. *)
Definition next_header : Header.t := Header.mk 6 101 [b2; b1] (Some key1) "div3".

End Toy.

(** * Properties *)

(** ** The store relations *)

Lemma same_store_refl w : same_store w w.
Proof. by split. Qed.

Lemma same_store_trans w1 w2 w3 :
  same_store w1 w2 → same_store w2 w3 → same_store w1 w3.
Proof. intros [A1 B1] [A2 B2]. split; congruence. Qed.

Lemma same_store_preserved w w' : same_store w w' → preserved w w'.
Proof. intros [Hc Hs]. split; intros a c; congruence. Qed.

(** ** Running a computation step by step *)

Lemma bind_returns {A B} (m : M A) (f : A → M B) w a w' :
  m w = Returns a w' → (m ≫= f) w = f a w'.
Proof. intros E. unfold mbind, M_bind. by rewrite E. Qed.

Lemma bind_inv {A B} (m : M A) (f : A → M B) w b w'' :
  (m ≫= f) w = Returns b w'' →
  ∃ a w', m w = Returns a w' ∧ f a w' = Returns b w''.
Proof.
  unfold mbind, M_bind. destruct (m w) as [|a w'] eqn:E; [done|]. eauto.
Qed.

Lemma load_consensus_inv p c w w' :
  load_consensus p w = Returns c w' →
  w' = w ∧ ∃ a, p = Some a ∧ consensusStates w !! a = Some c.
Proof.
  unfold load_consensus. destruct p as [a|]; [|done].
  destruct (consensusStates w !! a) eqn:E; [|done].
  intros [= -> ->]. eauto.
Qed.

(** ** Call-blindness of the building blocks *)

Lemma call_blind_ret {A} (a : A) : call_blind (mret a).
Proof. intros w w' S. by split. Qed.

Lemma call_blind_bind {A B} (m : M A) (f : A → M B) :
  call_blind m → (∀ a, call_blind (f a)) → call_blind (m ≫= f).
Proof.
  intros Hm Hf w w' S. specialize (Hm w w' S).
  unfold mbind, M_bind, agree in *.
  destruct (m w) as [|a v], (m w') as [|a' v']; try done.
  destruct Hm as [<- S']. by apply Hf.
Qed.

Lemma call_blind_panic {A} : call_blind (@panic A).
Proof. by intros w w' S. Qed.

Lemma call_blind_deref {A} (p : option A) : call_blind (deref p).
Proof. destruct p; [apply call_blind_ret | apply call_blind_panic]. Qed.

Lemma call_blind_call {A} c (r : A) : call_blind (call c r).
Proof. intros w w' [S1 S2]. repeat split; done. Qed.

Lemma call_blind_load_consensus p : call_blind (load_consensus p).
Proof.
  intros w w' [S1 S2]. unfold load_consensus, agree. destruct p as [a|]; [|done].
  rewrite <- S2. destruct (consensusStates w !! a); repeat split; done.
Qed.

Lemma call_blind_load_client p : call_blind (load_client p).
Proof.
  intros w w' [S1 S2]. unfold load_client, agree. destruct p as [a|]; [|done].
  rewrite <- S1. destruct (clientStates w !! a); repeat split; done.
Qed.

Lemma call_blind_store_client p c : call_blind (store_client p c).
Proof.
  intros w w' [S1 S2]. unfold store_client, agree. destruct p as [a|]; [|done].
  rewrite <- S1. destruct (clientStates w !! a); repeat split; simpl; congruence.
Qed.

Lemma call_blind_alloc_consensus c : call_blind (alloc_consensus c).
Proof.
  intros w w' [S1 S2]. unfold alloc_consensus, agree.
  repeat split; simpl; congruence.
Qed.

Lemma call_blind_alloc_client c : call_blind (alloc_client c).
Proof.
  intros w w' [S1 S2]. unfold alloc_client, agree.
  repeat split; simpl; congruence.
Qed.

Create HintDb blind.
#[local] Hint Resolve call_blind_ret call_blind_panic call_blind_deref
  call_blind_call call_blind_load_consensus call_blind_load_client
  call_blind_store_client call_blind_alloc_consensus call_blind_alloc_client
  : blind.

(** Splits a goal [call_blind m] along the binds, matches and conditionals
    of [m]. *)
Ltac blind :=
  repeat first
    [ progress eauto with blind
    | apply call_blind_bind; [|intros ?]
    | match goal with
      | |- call_blind (match ?x with _ => _ end) => destruct x
      | |- call_blind (if ?b then _ else _) => destruct b
      end ].

(** Unfolds the computation in the hypotheses and follows every branch that
    returns. *)
Ltac run_in_hyps :=
  unfold mbind, M_bind, mret, M_ret, call, deref, panic, load_consensus,
    load_client, store_client, alloc_consensus, alloc_client in *;
  intros; simplify_eq/=;
  repeat (case_match; simplify_eq/=);
  try done.

(** Closes [∃ w', same_store w w' ∧ m w = Returns a w'] once [m w] has been
    evaluated. *)
Ltac returned :=
  refine (ex_intro _ _ (conj _ eq_refl)); by split.

Section Properties.
Context `{Collaborators}.

Lemma call_blind_verifyHeaderSignature cs cdc h :
  call_blind (verifyHeaderSignature cs cdc h).
Proof. unfold verifyHeaderSignature. blind. Qed.

Lemma call_blind_verifySignatureAndData cdc cs d sd :
  call_blind (verifySignatureAndData cdc cs d sd).
Proof. unfold verifySignatureAndData. blind. Qed.

Lemma call_blind_VerifyHeader cs cdc header :
  call_blind (VerifyHeader cs cdc header).
Proof.
  pose proof call_blind_verifyHeaderSignature.
  pose proof call_blind_verifySignatureAndData.
  unfold VerifyHeader. blind.
Qed.

Lemma call_blind_update p h : call_blind (update p h).
Proof. unfold update. blind. Qed.

Lemma call_blind_CheckHeaderAndUpdateState cs ctx cdc clientStore header :
  call_blind (CheckHeaderAndUpdateState cs ctx cdc clientStore header).
Proof.
  pose proof call_blind_VerifyHeader.
  pose proof call_blind_update.
  unfold CheckHeaderAndUpdateState. blind.
Qed.

(** *** Verification writes nothing *)

Lemma verifyHeaderSignature_same_store cs cdc h w e w' :
  verifyHeaderSignature cs cdc h w = Returns e w' → same_store w w'.
Proof.
  unfold verifyHeaderSignature. run_in_hyps. 
Qed.

Lemma verifySignatureAndData_same_store cdc cs d sd w e w' :
  verifySignatureAndData cdc cs d sd w = Returns e w' → same_store w w'.
Proof. unfold verifySignatureAndData. run_in_hyps. Qed.

(** Every error of the statement check is an [ErrInvalidSignature]. *)
Lemma verifySignatureAndData_cause cdc cs d sd w e w' :
  verifySignatureAndData cdc cs d sd w = Returns (Some e) w' →
  ∃ err, e = Wrap (root_error ErrInvalidSignature) (error_Error err).
Proof. unfold verifySignatureAndData. run_in_hyps; eauto. Qed.

(** The statement check accepts only what the primitive accepts under the
    key registered in the current consensus state. *)
Lemma verifySignatureAndData_current_key cdc cs d sd w w' :
  verifySignatureAndData cdc cs d sd w = Returns None w' →
  ∃ a c data sigData publicKey,
    ClientState.ConsensusState cs = Some a
    ∧ consensusStates w !! a = Some c
    ∧ MisbehaviourSignBytes cdc (SignatureAndData.Sequence sd)
        (SignatureAndData.Timestamp sd) (SignatureAndData.Diversifier sd)
        (SignatureAndData.Data sd) = Ok data
    ∧ UnmarshalSignatureData cdc (SignatureAndData.Signature sd) = Ok sigData
    ∧ GetPubKey c = Ok publicKey
    ∧ VerifySignature publicKey data sigData = None.
Proof.
  unfold verifySignatureAndData. run_in_hyps.
  eexists _, _, _, _, _. repeat split; eauto.
Qed.

Lemma VerifyHeader_same_store cs cdc header w e w' :
  VerifyHeader cs cdc header w = Returns e w' → same_store w w'.
Proof.
  destruct header as [[h|]|[d|]|t|]; simpl; try (run_in_hyps; fail).
  - intros E. apply bind_inv in E as (h' & w1 & [= <- <-] & E).
    destruct (negb _); [by injection E as <- <-|].
    apply bind_inv in E as (c & w1 & L & E).
    apply load_consensus_inv in L as [-> _].
    destruct (_ <? _); [by injection E as <- <-|].
    by eapply verifyHeaderSignature_same_store.
  - intros E. apply bind_inv in E as (d' & w0 & [= <- <-] & E).
    apply bind_inv in E as ([e1|] & w1 & E1 & E).
    + injection E as <- <-. by eapply verifySignatureAndData_same_store.
    + apply verifySignatureAndData_same_store in E1.
      apply bind_inv in E as (e2 & w2 & E2 & E).
      apply verifySignatureAndData_same_store in E2.
      destruct e2; injection E as <- <-; by eapply same_store_trans.
Qed.

(** *** The three ways [CheckHeaderAndUpdateState] returns *)

Lemma update_returns a h w c :
  clientStates w !! a = Some c →
  update (Some a) (Some h) w =
    let q := fresh (dom (consensusStates w)) in
    Returns (Some a, Some q)
      (mkWorld
         (<[a := ClientState.mk (wrap64 (ClientState.Sequence c + 1)) (Some q)]>
            (clientStates w))
         (<[q := ConsensusState.mk (Header.NewPublicKey h) (Header.NewDiversifier h)
                   (Header.Timestamp h)]> (consensusStates w))
         (calls w)).
Proof.
  intros E. unfold update, mbind, M_bind, mret, M_ret, deref, alloc_consensus,
    load_client, store_client. simpl.
  rewrite E. simpl. rewrite E. simpl. rewrite !lookup_insert_eq. simpl.
  rewrite lookup_insert_eq. simpl. by rewrite insert_insert_eq.
Qed.

Lemma CheckHeaderAndUpdateState_rejects cs ctx cdc clientStore header w e w1 :
  VerifyHeader cs cdc header w = Returns (Some e) w1 →
  CheckHeaderAndUpdateState cs ctx cdc clientStore header w
    = Returns (None, None, Some e) w1.
Proof.
  intros E. unfold CheckHeaderAndUpdateState. by rewrite (bind_returns _ _ _ _ _ E).
Qed.

Lemma CheckHeaderAndUpdateState_accepts cs ctx cdc clientStore h w w1 :
  VerifyHeader cs cdc (HeaderPtr (Some h)) w = Returns None w1 →
  CheckHeaderAndUpdateState cs ctx cdc clientStore (HeaderPtr (Some h)) w =
    let p := fresh (dom (clientStates w1)) in
    let q := fresh (dom (consensusStates w1)) in
    Returns (Some p, Some q, None)
      (mkWorld
         (<[p := ClientState.mk (wrap64 (ClientState.Sequence cs + 1)) (Some q)]>
            (clientStates w1))
         (<[q := ConsensusState.mk (Header.NewPublicKey h) (Header.NewDiversifier h)
                   (Header.Timestamp h)]> (consensusStates w1))
         (calls w1)).
Proof.
  intros E. unfold CheckHeaderAndUpdateState. rewrite (bind_returns _ _ _ _ _ E).
  unfold alloc_client. unfold mbind at 1, M_bind at 1.
  unfold mbind, M_bind.
  erewrite update_returns by (simpl; apply lookup_insert_eq).
  simpl. by rewrite insert_insert_eq.
Qed.

Lemma CheckHeaderAndUpdateState_no_op cs ctx cdc clientStore header w w1 :
  (∀ h, header ≠ HeaderPtr h) →
  VerifyHeader cs cdc header w = Returns None w1 →
  CheckHeaderAndUpdateState cs ctx cdc clientStore header w
    = Returns (None, None, None) w1.
Proof.
  intros N E. unfold CheckHeaderAndUpdateState. rewrite (bind_returns _ _ _ _ _ E).
  destruct header; try done. by destruct (N h).
Qed.

(** A typed [nil] header never gets through [VerifyHeader]. *)
Lemma VerifyHeader_nil_Header cs cdc w : VerifyHeader cs cdc (HeaderPtr None) w = Panic.
Proof. done. Qed.

Lemma CheckHeaderAndUpdateState_inv cs ctx cdc clientStore header w r w' :
  CheckHeaderAndUpdateState cs ctx cdc clientStore header w = Returns r w' →
  (∃ e, VerifyHeader cs cdc header w = Returns (Some e) w' ∧ r = (None, None, Some e))
  ∨ (∃ h w1 p q,
       header = HeaderPtr (Some h)
       ∧ VerifyHeader cs cdc header w = Returns None w1
       ∧ r = (Some p, Some q, None)
       ∧ clientStates w1 !! p = None
       ∧ consensusStates w1 !! q = None
       ∧ clientStates w' =
           <[p := ClientState.mk (wrap64 (ClientState.Sequence cs + 1)) (Some q)]>
             (clientStates w1)
       ∧ consensusStates w' =
           <[q := ConsensusState.mk (Header.NewPublicKey h) (Header.NewDiversifier h)
                     (Header.Timestamp h)]> (consensusStates w1))
  ∨ ((∀ h, header ≠ HeaderPtr h)
     ∧ VerifyHeader cs cdc header w = Returns None w' ∧ r = (None, None, None)).
Proof.
  intros E.
  destruct (VerifyHeader cs cdc header w) as [|[e|] w1] eqn:V.
  - unfold CheckHeaderAndUpdateState, mbind, M_bind in E. by rewrite V in E.
  - rewrite (CheckHeaderAndUpdateState_rejects _ _ _ _ _ _ _ _ V) in E.
    injection E as <- <-. left. eauto.
  - destruct header as [[h|]|d|t|].
    + rewrite (CheckHeaderAndUpdateState_accepts _ _ _ _ _ _ _ V) in E.
      simpl in E. injection E as <- <-. right. left.
      eexists _, _, _, _. repeat split; simpl; try done.
      * apply not_elem_of_dom, is_fresh.
      * apply not_elem_of_dom, is_fresh.
    + by rewrite VerifyHeader_nil_Header in V.
    + right. right. split; [done|].
      erewrite CheckHeaderAndUpdateState_no_op in E by (done || exact V).
      by injection E as <- <-.
    + right. right. split; [done|].
      erewrite CheckHeaderAndUpdateState_no_op in E by (done || exact V).
      by injection E as <- <-.
    + right. right. split; [done|].
      erewrite CheckHeaderAndUpdateState_no_op in E by (done || exact V).
      by injection E as <- <-.
Qed.

(** *** The header path, check by check *)

Lemma VerifyHeader_sequence_mismatch cs cdc h w :
  Header.Sequence h ≠ ClientState.Sequence cs →
  VerifyHeader cs cdc (HeaderPtr (Some h)) w
    = Returns (Some (sequence_mismatch (Header.Sequence h) (ClientState.Sequence cs))) w.
Proof.
  intros N. unfold VerifyHeader, mbind, M_bind, deref, mret, M_ret.
  by rewrite (proj2 (Z.eqb_neq _ _) N).
Qed.

Lemma VerifyHeader_timestamp_regression cs cdc h w a c :
  Header.Sequence h = ClientState.Sequence cs →
  ClientState.ConsensusState cs = Some a →
  consensusStates w !! a = Some c →
  Header.Timestamp h < ConsensusState.Timestamp c →
  VerifyHeader cs cdc (HeaderPtr (Some h)) w
    = Returns (Some (timestamp_regression (Header.Timestamp h)
                       (ConsensusState.Timestamp c))) w.
Proof.
  intros S P L T. unfold VerifyHeader, mbind, M_bind, deref, mret, M_ret.
  rewrite (proj2 (Z.eqb_eq _ _) S), P. simpl. rewrite L.
  by rewrite (proj2 (Z.ltb_lt _ _) T).
Qed.

Lemma VerifyHeader_signature_stage cs cdc h w a c :
  Header.Sequence h = ClientState.Sequence cs →
  ClientState.ConsensusState cs = Some a →
  consensusStates w !! a = Some c →
  ConsensusState.Timestamp c ≤ Header.Timestamp h →
  VerifyHeader cs cdc (HeaderPtr (Some h)) w = verifyHeaderSignature cs cdc h w.
Proof.
  intros S P L T. unfold VerifyHeader, mbind at 1 2, M_bind at 1 2, deref, mret, M_ret.
  rewrite (proj2 (Z.eqb_eq _ _) S), P. simpl. rewrite L.
  by rewrite (proj2 (Z.ltb_ge _ _) T).
Qed.

(** The signature stage never panics when the consensus state is there;
    its verdict is that of the first collaborator that fails. *)
Lemma verifyHeaderSignature_returns cs cdc h w a c :
  ClientState.ConsensusState cs = Some a →
  consensusStates w !! a = Some c →
  ∃ w', same_store w w' ∧
    verifyHeaderSignature cs cdc h w =
      Returns
        match HeaderSignBytes cdc h with
        | Err err => Some err
        | Ok data =>
            match UnmarshalSignatureData cdc (Header.Signature h) with
            | Err err => Some err
            | Ok sigData =>
                match GetPubKey c with
                | Err err => Some err
                | Ok publicKey =>
                    match VerifySignature publicKey data sigData with
                    | Some err =>
                        Some (Wrap (root_error ErrInvalidHeader) (error_Error err))
                    | None => None
                    end
                end
            end
        end w'.
Proof.
  intros P L. unfold verifyHeaderSignature, mbind, M_bind, mret, M_ret, call.
  rewrite P. simpl.
  destruct (HeaderSignBytes cdc h) as [data|err]; [|returned].
  destruct (UnmarshalSignatureData cdc _) as [sigData|err]; [|returned].
  unfold load_consensus. simpl. rewrite L.
  destruct (GetPubKey c) as [publicKey|err]; [|returned].
  destruct (VerifySignature _ _ _); returned.
Qed.

(** *** Acceptance *)

(** C1 (as amended).  When a header passes the sequence, timestamp and
    signature checks, [CheckHeaderAndUpdateState] returns a new client
    state and a new consensus state, without error.  The new sequence is
    the old one plus one modulo [2^64]: exactly the old one plus one below
    the last sequence number, and zero at the last one.  The new consensus
    state carries the header's new public key, new diversifier and
    timestamp, and the new client state points to it. *)
Theorem C1_accepted_update cs ctx cdc clientStore h w w1 :
  VerifyHeader cs cdc (HeaderPtr (Some h)) w = Returns None w1 →
  ∃ p q w' c s,
    CheckHeaderAndUpdateState cs ctx cdc clientStore (HeaderPtr (Some h)) w
      = Returns (Some p, Some q, None) w'
    ∧ clientStates w' !! p = Some c
    ∧ consensusStates w' !! q = Some s
    ∧ ClientState.Sequence c = (ClientState.Sequence cs + 1) mod 2 ^ 64
    ∧ (0 ≤ ClientState.Sequence cs < 2 ^ 64 - 1 →
       ClientState.Sequence c = ClientState.Sequence cs + 1)
    ∧ (ClientState.Sequence cs = 2 ^ 64 - 1 → ClientState.Sequence c = 0)
    ∧ ClientState.ConsensusState c = Some q
    ∧ ConsensusState.PublicKey s = Header.NewPublicKey h
    ∧ ConsensusState.Diversifier s = Header.NewDiversifier h
    ∧ ConsensusState.Timestamp s = Header.Timestamp h.
Proof.
  intros V.
  rewrite (CheckHeaderAndUpdateState_accepts cs ctx cdc clientStore h w w1 V).
  simpl. eexists _, _, _, _, _. split; [reflexivity|]. simpl.
  rewrite !lookup_insert_eq. repeat split; simpl.
  - intros R. unfold wrap64. apply Z.mod_small. lia.
  - intros ->. reflexivity.
Qed.

(** *** Rejection by the sequence and timestamp checks *)

(** C2.  A header whose sequence differs from the client state's, whether
    lower or higher, is rejected with the sequence error, an
    [ErrInvalidHeader] of the client module; no state is returned and the
    store is untouched. *)
Theorem C2_sequence_mismatch_rejected cs ctx cdc clientStore h w :
  Header.Sequence h ≠ ClientState.Sequence cs →
  CheckHeaderAndUpdateState cs ctx cdc clientStore (HeaderPtr (Some h)) w
    = Returns
        (None, None,
         Some (sequence_mismatch (Header.Sequence h) (ClientState.Sequence cs))) w
  ∧ Cause (sequence_mismatch (Header.Sequence h) (ClientState.Sequence cs))
    = clienttypes_ErrInvalidHeader.
Proof.
  intros N. split; [|reflexivity].
  apply CheckHeaderAndUpdateState_rejects.
  by apply VerifyHeader_sequence_mismatch.
Qed.

(** C3.  With a matching sequence, a header older than the consensus
    state is rejected with the timestamp error; a header with exactly the
    timestamp of the consensus state goes on to the signature stage, and
    is accepted when the signature stage finds nothing wrong. *)
Theorem C3_timestamp_check cs ctx cdc clientStore h w a c :
  Header.Sequence h = ClientState.Sequence cs →
  ClientState.ConsensusState cs = Some a →
  consensusStates w !! a = Some c →
  (Header.Timestamp h < ConsensusState.Timestamp c →
     CheckHeaderAndUpdateState cs ctx cdc clientStore (HeaderPtr (Some h)) w
       = Returns
           (None, None,
            Some (timestamp_regression (Header.Timestamp h)
                    (ConsensusState.Timestamp c))) w)
  ∧ (Header.Timestamp h = ConsensusState.Timestamp c →
       VerifyHeader cs cdc (HeaderPtr (Some h)) w = verifyHeaderSignature cs cdc h w
       ∧ ∀ data sigData publicKey,
           HeaderSignBytes cdc h = Ok data →
           UnmarshalSignatureData cdc (Header.Signature h) = Ok sigData →
           GetPubKey c = Ok publicKey →
           VerifySignature publicKey data sigData = None →
           ∃ p q w',
             CheckHeaderAndUpdateState cs ctx cdc clientStore (HeaderPtr (Some h)) w
               = Returns (Some p, Some q, None) w').
Proof.
  intros S P L. split.
  - intros T. apply CheckHeaderAndUpdateState_rejects.
    by eapply VerifyHeader_timestamp_regression.
  - intros T.
    assert (V : VerifyHeader cs cdc (HeaderPtr (Some h)) w
                = verifyHeaderSignature cs cdc h w).
    { eapply VerifyHeader_signature_stage; eauto. lia. }
    split; [done|]. intros data sigData publicKey E1 E2 E3 E4.
    destruct (verifyHeaderSignature_returns cs cdc h w a c P L) as (w1 & _ & R).
    rewrite E1, E2, E3, E4 in R. rewrite <- V in R.
    rewrite (CheckHeaderAndUpdateState_accepts cs ctx cdc clientStore h w w1 R).
    simpl. eauto.
Qed.

(** C10.  The checks are made in the order sequence, timestamp,
    signature, and the first failure decides.  On a sequence mismatch the
    sequence error is returned whatever the timestamp and the signature
    are; on a timestamp regression, the timestamp error whatever the
    signature is.  In both cases the world is returned as it was: in
    particular the record of calls has not grown, no collaborator was
    called.  Otherwise the verdict is that of the signature stage. *)
Theorem C10_checks_in_order cs cdc h w :
  (Header.Sequence h ≠ ClientState.Sequence cs →
     ∃ w',
       VerifyHeader cs cdc (HeaderPtr (Some h)) w
         = Returns
             (Some (sequence_mismatch (Header.Sequence h) (ClientState.Sequence cs))) w'
       ∧ calls w' = calls w ∧ same_store w w')
  ∧ (∀ a c,
       Header.Sequence h = ClientState.Sequence cs →
       ClientState.ConsensusState cs = Some a →
       consensusStates w !! a = Some c →
       (Header.Timestamp h < ConsensusState.Timestamp c →
          ∃ w',
            VerifyHeader cs cdc (HeaderPtr (Some h)) w
              = Returns
                  (Some (timestamp_regression (Header.Timestamp h)
                           (ConsensusState.Timestamp c))) w'
            ∧ calls w' = calls w ∧ same_store w w')
       ∧ (ConsensusState.Timestamp c ≤ Header.Timestamp h →
            VerifyHeader cs cdc (HeaderPtr (Some h)) w
              = verifyHeaderSignature cs cdc h w)).
Proof.
  split.
  - intros N. exists w. split; [|by split].
    by apply VerifyHeader_sequence_mismatch.
  - intros a c S P L. split.
    + intros T. exists w. split; [|by split].
      by eapply VerifyHeader_timestamp_regression.
    + intros T. by eapply VerifyHeader_signature_stage.
Qed.

(** *** Rejection by the signature stage *)

(** C4 (as amended).  With a matching sequence and a timestamp that does
    not regress, the header is rejected whenever the signature stage
    fails, and the error depends on what failed.  When the decoded
    signature does not verify under the key extracted from the current
    consensus state, the error is the solo machine [ErrInvalidHeader]
    wrapping the text of the primitive's error.  When the sign-bytes
    cannot be built, the signature blob cannot be decoded or the key
    cannot be extracted, the error of that collaborator is returned as it
    is.  In every case no state is returned and the store is untouched. *)
Theorem C4_signature_stage_errors cs ctx cdc clientStore h w a c :
  Header.Sequence h = ClientState.Sequence cs →
  ClientState.ConsensusState cs = Some a →
  consensusStates w !! a = Some c →
  ConsensusState.Timestamp c ≤ Header.Timestamp h →
  let run := CheckHeaderAndUpdateState cs ctx cdc clientStore (HeaderPtr (Some h)) w in
  (∀ err, HeaderSignBytes cdc h = Err err → rejects_with run w err)
  ∧ (∀ data err,
       HeaderSignBytes cdc h = Ok data →
       UnmarshalSignatureData cdc (Header.Signature h) = Err err →
       rejects_with run w err)
  ∧ (∀ data sigData err,
       HeaderSignBytes cdc h = Ok data →
       UnmarshalSignatureData cdc (Header.Signature h) = Ok sigData →
       GetPubKey c = Err err →
       rejects_with run w err)
  ∧ (∀ data sigData publicKey err,
       HeaderSignBytes cdc h = Ok data →
       UnmarshalSignatureData cdc (Header.Signature h) = Ok sigData →
       GetPubKey c = Ok publicKey →
       VerifySignature publicKey data sigData = Some err →
       rejects_with run w (Wrap (root_error ErrInvalidHeader) (error_Error err))).
Proof.
  intros S P L T run.
  destruct (verifyHeaderSignature_returns cs cdc h w a c P L) as (w1 & SS & R).
  rewrite <- (VerifyHeader_signature_stage cs cdc h w a c S P L T) in R.
  repeat split; intros; exists w1; (split; [|done]);
    apply CheckHeaderAndUpdateState_rejects; rewrite R;
    repeat match goal with E : _ = _ |- _ => rewrite E; clear E end; done.
Qed.

(** *** The misbehaviour path *)

(** The statement check never panics when the consensus state is there;
    it accepts exactly the statements that verify, and every error it
    reports is an [ErrInvalidSignature]. *)
Lemma verifySignatureAndData_returns cdc cs d sd w a c :
  ClientState.ConsensusState cs = Some a →
  consensusStates w !! a = Some c →
  ∃ w' r, same_store w w'
    ∧ verifySignatureAndData cdc cs d sd w = Returns r w'
    ∧ if statement_verifies cdc c sd then r = None
      else ∃ err, r = Some (Wrap (root_error ErrInvalidSignature) (error_Error err)).
Proof.
  intros P L.
  unfold verifySignatureAndData, statement_verifies, mbind, M_bind, mret, M_ret, call.
  rewrite P. simpl.
  destruct (MisbehaviourSignBytes _ _ _ _ _) as [data|err];
    [|eexists _, _; (split; [|split; [reflexivity|]]); [by split|eauto]].
  destruct (UnmarshalSignatureData cdc _) as [sigData|err];
    [|eexists _, _; (split; [|split; [reflexivity|]]); [by split|eauto]].
  unfold load_consensus. simpl. rewrite L.
  destruct (GetPubKey c) as [publicKey|err];
    [|eexists _, _; (split; [|split; [reflexivity|]]); [by split|eauto]].
  destruct (VerifySignature _ _ _);
    eexists _, _; (split; [|split; [reflexivity|]]); [by split|eauto|by split|eauto].
Qed.

Lemma same_store_lookup w w' a (c : ConsensusState.t) :
  same_store w w' → consensusStates w !! a = Some c → consensusStates w' !! a = Some c.
Proof. intros [_ <-]. done. Qed.

(** [VerifyHeader] on a misbehaviour proof: the first statement that does
    not verify decides. *)
Lemma VerifyHeader_DuplicateSignatures cs cdc d w a c :
  ClientState.ConsensusState cs = Some a →
  consensusStates w !! a = Some c →
  ∃ w' r, same_store w w'
    ∧ VerifyHeader cs cdc (DuplicateSignaturesPtr (Some d)) w = Returns r w'
    ∧ if statement_verifies cdc c (DuplicateSignatures.SignatureOne d) then
        if statement_verifies cdc c (DuplicateSignatures.SignatureTwo d) then r = None
        else ∃ err,
          r = Some (Wrap (Wrap (root_error ErrInvalidSignature) (error_Error err))
                      "failed to verify signature two")
      else ∃ err,
        r = Some (Wrap (Wrap (root_error ErrInvalidSignature) (error_Error err))
                    "failed to verify signature one").
Proof.
  intros P L.
  destruct (verifySignatureAndData_returns cdc cs d
              (DuplicateSignatures.SignatureOne d) w a c P L) as (w1 & r1 & S1 & E1 & V1).
  pose proof (same_store_lookup _ _ _ _ S1 L) as L1.
  destruct (verifySignatureAndData_returns cdc cs d
              (DuplicateSignatures.SignatureTwo d) w1 a c P L1) as (w2 & r2 & S2 & E2 & V2).
  unfold VerifyHeader. unfold mbind at 1, M_bind at 1, deref, mret at 1, M_ret at 1.
  rewrite (bind_returns _ _ _ _ _ E1).
  destruct (statement_verifies cdc c (DuplicateSignatures.SignatureOne d)).
  - subst r1. rewrite (bind_returns _ _ _ _ _ E2).
    exists w2. destruct (statement_verifies cdc c (DuplicateSignatures.SignatureTwo d)).
    + subst r2. eexists. repeat split; try done; by eapply same_store_trans.
    + destruct V2 as [err ->]. eexists.
      split; [by eapply same_store_trans|]. split; [done|]. by exists err.
  - destruct V1 as [err ->]. exists w1. eexists. split; [done|]. split; [done|].
    by exists err.
Qed.

(** C6.  Each of the two signed statements is verified under the key
    registered in the current consensus state.  If the first does not
    verify, or the first does and the second does not, the proof is
    rejected with an [ErrInvalidSignature] error, wrapped with the rank of
    the statement: no state is returned and the store is untouched.  The
    proof gets through [VerifyHeader] only if both statements verify. *)
Theorem C6_either_signature_fails cs ctx cdc clientStore d w a c :
  ClientState.ConsensusState cs = Some a →
  consensusStates w !! a = Some c →
  let run :=
    CheckHeaderAndUpdateState cs ctx cdc clientStore (DuplicateSignaturesPtr (Some d)) w in
  (statement_verifies cdc c (DuplicateSignatures.SignatureOne d) = false →
     ∃ e, rejects_with run w (Wrap e "failed to verify signature one")
          ∧ Cause e = ErrInvalidSignature)
  ∧ (statement_verifies cdc c (DuplicateSignatures.SignatureOne d) = true →
     statement_verifies cdc c (DuplicateSignatures.SignatureTwo d) = false →
     ∃ e, rejects_with run w (Wrap e "failed to verify signature two")
          ∧ Cause e = ErrInvalidSignature)
  ∧ (∀ w',
       VerifyHeader cs cdc (DuplicateSignaturesPtr (Some d)) w = Returns None w' →
       statement_verifies cdc c (DuplicateSignatures.SignatureOne d) = true
       ∧ statement_verifies cdc c (DuplicateSignatures.SignatureTwo d) = true).
Proof.
  intros P L run.
  destruct (VerifyHeader_DuplicateSignatures cs cdc d w a c P L) as (w1 & r & S & V & R).
  split; [|split].
  - intros F1. rewrite F1 in R. destruct R as [err ->].
    exists (Wrap (root_error ErrInvalidSignature) (error_Error err)).
    split; [|reflexivity]. exists w1. split; [|done].
    by apply CheckHeaderAndUpdateState_rejects.
  - intros T1 F2. rewrite T1, F2 in R. destruct R as [err ->].
    exists (Wrap (root_error ErrInvalidSignature) (error_Error err)).
    split; [|reflexivity]. exists w1. split; [|done].
    by apply CheckHeaderAndUpdateState_rejects.
  - intros w' V'. rewrite V in V'. injection V' as E _. subst r.
    destruct (statement_verifies cdc c (DuplicateSignatures.SignatureOne d));
      [|by destruct R].
    destruct (statement_verifies cdc c (DuplicateSignatures.SignatureTwo d)); [done|].
    by destruct R.
Qed.

(** C7 (as amended).  A misbehaviour proof whose two statements both
    verify under the current key gets through [VerifyHeader] without
    error.  Nothing is required of the two payloads: they may be
    identical. *)
Theorem C7_verified_statements_accepted cs cdc d w a c :
  ClientState.ConsensusState cs = Some a →
  consensusStates w !! a = Some c →
  statement_verifies cdc c (DuplicateSignatures.SignatureOne d) = true →
  statement_verifies cdc c (DuplicateSignatures.SignatureTwo d) = true →
  ∃ w', VerifyHeader cs cdc (DuplicateSignaturesPtr (Some d)) w = Returns None w'
        ∧ same_store w w'.
Proof.
  intros P L T1 T2.
  destruct (VerifyHeader_DuplicateSignatures cs cdc d w a c P L) as (w1 & r & S & V & R).
  rewrite T1, T2 in R. subst r. eauto.
Qed.

(** C8, what the code does.  For a misbehaviour proof whose two statements
    verify, [CheckHeaderAndUpdateState] returns neither an error nor a new
    state. *)
Theorem C8_verified_proof_returns_nothing cs ctx cdc clientStore d w a c :
  ClientState.ConsensusState cs = Some a →
  consensusStates w !! a = Some c →
  statement_verifies cdc c (DuplicateSignatures.SignatureOne d) = true →
  statement_verifies cdc c (DuplicateSignatures.SignatureTwo d) = true →
  ∃ w',
    CheckHeaderAndUpdateState cs ctx cdc clientStore (DuplicateSignaturesPtr (Some d)) w
      = Returns (None, None, None) w'
    ∧ same_store w w'.
Proof.
  intros P L T1 T2.
  destruct (VerifyHeader_DuplicateSignatures cs cdc d w a c P L) as (w1 & r & S & V & R).
  rewrite T1, T2 in R. subst r. exists w1. split; [|done].
  by apply CheckHeaderAndUpdateState_no_op.
Qed.

(** A header of any other dynamic type, or a [nil] header, is a hard
    error. *)
Lemma unrecognized_header_rejected cs ctx cdc clientStore header w :
  (∃ t, header = OtherHeader t) ∨ header = NilHeader →
  CheckHeaderAndUpdateState cs ctx cdc clientStore header w
    = Returns (None, None, Some (unexpected_type header)) w
  ∧ Cause (unexpected_type header) = sdkerrors_ErrInvalidType.
Proof. intros [[t ->] | ->]; done. Qed.

(** *** No partial update, and rejection is repeatable *)

Lemma rejection_same_store cs ctx cdc clientStore header w p q e w' :
  CheckHeaderAndUpdateState cs ctx cdc clientStore header w = Returns (p, q, Some e) w' →
  same_store w w'.
Proof.
  intros E. apply CheckHeaderAndUpdateState_inv in E
    as [(e' & V & _)|[(h & w1 & p' & q' & _ & _ & [=] & _)|(_ & _ & [=])]].
  by eapply VerifyHeader_same_store.
Qed.

(** X14.  No partial update.  Whatever the header, a run that returns keeps
    every cell of the store as it was.  When it returns an error, nothing
    was written or allocated and no state is returned.  For a single-update
    header there is no other case than an error or both new states; in no
    case is one state returned without the other. *)
Theorem no_partial_update cs ctx cdc clientStore header w p q err w' :
  CheckHeaderAndUpdateState cs ctx cdc clientStore header w = Returns (p, q, err) w' →
  preserved w w'
  ∧ (err ≠ None → same_store w w' ∧ p = None ∧ q = None)
  ∧ (err = None → ∀ h, header = HeaderPtr h → is_Some p ∧ is_Some q)
  ∧ (p = None ↔ q = None).
Proof.
  intros E. apply CheckHeaderAndUpdateState_inv in E
    as [(e & V & [= -> -> ->])
       |[(h & w1 & p' & q' & -> & V & [= -> -> ->] & Fp & Fq & Ec & Es)
        |(N & V & [= -> -> ->])]];
    apply VerifyHeader_same_store in V as S.
  - split; [by apply same_store_preserved|].
    split; [done|]. split; done.
  - split; [|split; [done|split; [eauto|done]]].
    destruct S as [Sc Ss]. split; intros a c L.
    + rewrite Ec. rewrite Sc in L.
      rewrite lookup_insert_ne; [done|]. intros <-. congruence.
    + rewrite Es. rewrite Ss in L.
      rewrite lookup_insert_ne; [done|]. intros <-. congruence.
  - split; [by apply same_store_preserved|].
    split; [done|]. split; [|done].
    intros _ h ->. by destruct (N h).
Qed.

(** C5, where the code departs from it.  For a misbehaviour proof whose two
    statements verify under the current key, the run is neither of the two
    outcomes the claim allows: it returns, with the cells as they were, but
    it returns no error, and it does not return the two new states. *)
Theorem C5_neither_outcome_on_verified_proof cs ctx cdc clientStore d w a c :
  ClientState.ConsensusState cs = Some a →
  consensusStates w !! a = Some c →
  statement_verifies cdc c (DuplicateSignatures.SignatureOne d) = true →
  statement_verifies cdc c (DuplicateSignatures.SignatureTwo d) = true →
  let run :=
    CheckHeaderAndUpdateState cs ctx cdc clientStore (DuplicateSignaturesPtr (Some d)) w in
  (∃ r w', run = Returns r w' ∧ same_store w w')
  ∧ ¬ (∃ p q e w', run = Returns (Some p, Some q, e) w')
  ∧ ¬ (∃ p q e w', run = Returns (p, q, Some e) w').
Proof.
  intros P L T1 T2 run.
  destruct (VerifyHeader_DuplicateSignatures cs cdc d w a c P L) as (w1 & r & S & V & R).
  rewrite T1, T2 in R. subst r.
  assert (E : run = Returns (None, None, None) w1).
  { unfold run. by apply CheckHeaderAndUpdateState_no_op. }
  split; [eauto|]. rewrite E.
  split; intros (p & q & e & w' & [=]).
Qed.

(** C9.  A rejected update leaves the store as it was, and the same call
    made again on the store it left is rejected with the same error, again
    without touching the store. *)
Theorem C9_rejection_idempotent cs ctx cdc clientStore header w p q e w1 :
  CheckHeaderAndUpdateState cs ctx cdc clientStore header w = Returns (p, q, Some e) w1 →
  same_store w w1
  ∧ ∃ w2,
      CheckHeaderAndUpdateState cs ctx cdc clientStore header w1
        = Returns (p, q, Some e) w2
      ∧ same_store w1 w2.
Proof.
  intros E.
  assert (S : same_store w w1).
  { by eapply rejection_same_store. }
  split; [done|].
  pose proof (call_blind_CheckHeaderAndUpdateState cs ctx cdc clientStore header w w1 S)
    as A.
  rewrite E in A. unfold agree in A.
  destruct (CheckHeaderAndUpdateState cs ctx cdc clientStore header w1) as [|r w2];
    [done|].
  destruct A as [<- S2]. by exists w2.
Qed.

End Properties.

(** * The program on concrete inputs *)

Section Examples.
Local Existing Instance Toy.collaborators.

Abbreviation run cs header w := (CheckHeaderAndUpdateState cs tt tt tt header w).

Example accepts_good_header :
  ∃ w', run Toy.client0 (HeaderPtr (Some Toy.good_header)) Toy.world0
        = Returns (Some 2%positive, Some 2%positive, None) w'
        ∧ clientStates w' !! 2%positive = Some (ClientState.mk 6 (Some 2%positive))
        ∧ clientStates w' !! 1%positive = Some Toy.client0
        ∧ consensusStates w' !! 1%positive = Some Toy.consensus0.
Proof. eexists. split; [vm_compute; reflexivity|]. by vm_compute. Qed.

Example rejects_stale_header :
  run Toy.client0 (HeaderPtr (Some Toy.stale_header)) Toy.world0
  = Returns
      (None, None,
       Some (wrappedError (root_error clienttypes_ErrInvalidHeader)
               "header sequence does not match the client state sequence (4 != 5)"))
      Toy.world0.
Proof. vm_compute. reflexivity. Qed.

Example rejects_future_header :
  run Toy.client0 (HeaderPtr (Some Toy.future_header)) Toy.world0
  = Returns
      (None, None,
       Some (wrappedError (root_error clienttypes_ErrInvalidHeader)
               "header sequence does not match the client state sequence (6 != 5)"))
      Toy.world0.
Proof. vm_compute. reflexivity. Qed.

Example rejects_old_header :
  run Toy.client0 (HeaderPtr (Some Toy.old_header)) Toy.world0
  = Returns
      (None, None,
       Some (wrappedError (root_error clienttypes_ErrInvalidHeader)
               "header timestamp is less than to the consensus state timestamp (99 < 100)"))
      Toy.world0.
Proof. vm_compute. reflexivity. Qed.

Example rejects_forged_header :
  run Toy.client0 (HeaderPtr (Some Toy.forged_header)) Toy.world0
  = Returns
      (None, None,
       Some (wrappedError (root_error ErrInvalidHeader) "signature verification failed"))
      Toy.world0_checked.
Proof. vm_compute. reflexivity. Qed.

Example rejects_nil_header :
  run Toy.client0 NilHeader Toy.world0
  = Returns
      (None, None,
       Some (wrappedError (root_error sdkerrors_ErrInvalidType)
               "unexpected type for header: %!s(<nil>)"))
      Toy.world0.
Proof. vm_compute. reflexivity. Qed.

Example panics_on_nil_consensus_state :
  run (ClientState.mk 5 None) (HeaderPtr (Some Toy.good_header)) Toy.world0 = Panic.
Proof. vm_compute. reflexivity. Qed.

(** *** Instances of the theorems *)

Lemma C1_accepted_update_witness :
  VerifyHeader Toy.client0 tt (HeaderPtr (Some Toy.good_header)) Toy.world0
    = Returns None Toy.world0_checked
  ∧ ∃ p q w' c s,
      run Toy.client0 (HeaderPtr (Some Toy.good_header)) Toy.world0
        = Returns (Some p, Some q, None) w'
      ∧ clientStates w' !! p = Some c
      ∧ consensusStates w' !! q = Some s
      ∧ ClientState.Sequence c = (5 + 1) mod 2 ^ 64
      ∧ (0 ≤ 5 < 2 ^ 64 - 1 → ClientState.Sequence c = 5 + 1)
      ∧ (5 = 2 ^ 64 - 1 → ClientState.Sequence c = 0)
      ∧ ClientState.ConsensusState c = Some q
      ∧ ConsensusState.PublicKey s = Some Toy.key2
      ∧ ConsensusState.Diversifier s = "div2"
      ∧ ConsensusState.Timestamp s = 100.
Proof.
  split; [vm_compute; reflexivity|].
  apply (C1_accepted_update (H := Toy.collaborators) Toy.client0 tt tt tt Toy.good_header Toy.world0
           Toy.world0_checked).
  vm_compute. reflexivity.
Defined.

(** C1, as first stated, fails at the last sequence number: the accepted
    update of a client at sequence [2^64 - 1] returns a client state at
    sequence 0, not [2^64]. *)
Lemma C1_sequence_wraps_at_max :
  VerifyHeader Toy.client_max tt (HeaderPtr (Some Toy.header_max)) Toy.world_max
    = Returns None
        (mkWorld (clientStates Toy.world_max) (consensusStates Toy.world_max)
           Toy.stage_calls)
  ∧ ∃ w' c,
      run Toy.client_max (HeaderPtr (Some Toy.header_max)) Toy.world_max
        = Returns (Some 2%positive, Some 2%positive, None) w'
      ∧ clientStates w' !! 2%positive = Some c
      ∧ ClientState.Sequence c = 0
      ∧ ClientState.Sequence c ≠ ClientState.Sequence Toy.client_max + 1.
Proof.
  split; [vm_compute; reflexivity|].
  eexists _, _. split; [vm_compute; reflexivity|].
  split; [vm_compute; reflexivity|]. by vm_compute.
Qed.

Lemma C2_sequence_mismatch_rejected_witness :
  (4 ≠ 5
   ∧ run Toy.client0 (HeaderPtr (Some Toy.stale_header)) Toy.world0
     = Returns (None, None, Some (sequence_mismatch 4 5)) Toy.world0
   ∧ Cause (sequence_mismatch 4 5) = clienttypes_ErrInvalidHeader)
  ∧ (6 ≠ 5
     ∧ run Toy.client0 (HeaderPtr (Some Toy.future_header)) Toy.world0
       = Returns (None, None, Some (sequence_mismatch 6 5)) Toy.world0
     ∧ Cause (sequence_mismatch 6 5) = clienttypes_ErrInvalidHeader).
Proof.
  split; (split; [lia|]).
  - apply (C2_sequence_mismatch_rejected (H := Toy.collaborators) Toy.client0 tt tt tt Toy.stale_header Toy.world0).
    simpl. lia.
  - apply (C2_sequence_mismatch_rejected (H := Toy.collaborators) Toy.client0 tt tt tt Toy.future_header Toy.world0).
    simpl. lia.
Defined.

Lemma C3_timestamp_check_witness :
  run Toy.client0 (HeaderPtr (Some Toy.old_header)) Toy.world0
    = Returns (None, None, Some (timestamp_regression 99 100)) Toy.world0
  ∧ ∃ p q w',
      run Toy.client0 (HeaderPtr (Some Toy.good_header)) Toy.world0
        = Returns (Some p, Some q, None) w'.
Proof.
  split.
  - apply (C3_timestamp_check (H := Toy.collaborators) Toy.client0 tt tt tt Toy.old_header Toy.world0
             1%positive Toy.consensus0);
      [reflexivity | reflexivity | vm_compute; reflexivity | simpl; lia].
  - eapply (C3_timestamp_check (H := Toy.collaborators) Toy.client0 tt tt tt Toy.good_header Toy.world0
              1%positive Toy.consensus0);
      [reflexivity | reflexivity | vm_compute; reflexivity | reflexivity
      | reflexivity | reflexivity | reflexivity | reflexivity].
Defined.

Lemma C10_checks_in_order_witness :
  (∃ w',
     VerifyHeader Toy.client0 tt (HeaderPtr (Some Toy.stale_header)) Toy.world0
       = Returns (Some (sequence_mismatch 4 5)) w'
     ∧ calls w' = [] ∧ same_store Toy.world0 w')
  ∧ (∃ w',
       VerifyHeader Toy.client0 tt (HeaderPtr (Some Toy.old_header)) Toy.world0
         = Returns (Some (timestamp_regression 99 100)) w'
       ∧ calls w' = [] ∧ same_store Toy.world0 w')
  ∧ VerifyHeader Toy.client0 tt (HeaderPtr (Some Toy.forged_header)) Toy.world0
    = verifyHeaderSignature Toy.client0 tt Toy.forged_header Toy.world0.
Proof.
  split; [|split].
  - apply (C10_checks_in_order (H := Toy.collaborators) Toy.client0 tt Toy.stale_header Toy.world0).
    simpl. lia.
  - destruct (C10_checks_in_order (H := Toy.collaborators) Toy.client0 tt
                Toy.old_header Toy.world0) as [_ later].
    apply (later 1%positive Toy.consensus0);
      [reflexivity | reflexivity | vm_compute; reflexivity | simpl; lia].
  - destruct (C10_checks_in_order (H := Toy.collaborators) Toy.client0 tt
                Toy.forged_header Toy.world0) as [_ later].
    apply (later 1%positive Toy.consensus0);
      [reflexivity | reflexivity | vm_compute; reflexivity | simpl; lia].
Defined.

Lemma C4_signature_stage_errors_witness :
  rejects_with (run Toy.client0 (HeaderPtr (Some Toy.forged_header)) Toy.world0)
    Toy.world0
    (Wrap (root_error ErrInvalidHeader) "signature verification failed")
  ∧ rejects_with (run Toy.client0 (HeaderPtr (Some Toy.undecodable_header)) Toy.world0)
      Toy.world0
      (root_error (foreign "failed to unmarshal proof")).
Proof.
  assert (L : consensusStates Toy.world0 !! 1%positive = Some Toy.consensus0)
    by (vm_compute; reflexivity).
  split.
  - assert (T : ConsensusState.Timestamp Toy.consensus0
                ≤ Header.Timestamp Toy.forged_header) by (simpl; lia).
    destruct (C4_signature_stage_errors (H := Toy.collaborators) Toy.client0 tt tt tt
                Toy.forged_header Toy.world0 1%positive Toy.consensus0
                eq_refl eq_refl L T) as (_ & _ & _ & verification).
    apply (verification [Toy.b2] [Toy.b2; Toy.b2] [Toy.b1]
             (root_error (foreign "signature verification failed")));
      reflexivity.
  - assert (T : ConsensusState.Timestamp Toy.consensus0
                ≤ Header.Timestamp Toy.undecodable_header) by (simpl; lia).
    destruct (C4_signature_stage_errors (H := Toy.collaborators) Toy.client0 tt tt tt
                Toy.undecodable_header Toy.world0 1%positive Toy.consensus0
                eq_refl eq_refl L T) as (_ & decoding & _).
    apply (decoding [Toy.b2]); reflexivity.
Defined.

(** C4, as first stated, fails on a signature blob that does not decode:
    the sequence matches and the timestamp does not regress, yet the error
    returned is the decoder's own, which wraps nothing and has neither
    [ErrInvalidHeader] nor [ErrInvalidSignature] at its root. *)
Lemma C4_decoding_error_returned_as_is :
  Header.Sequence Toy.undecodable_header = ClientState.Sequence Toy.client0
  ∧ ConsensusState.Timestamp Toy.consensus0 ≤ Header.Timestamp Toy.undecodable_header
  ∧ UnmarshalSignatureData tt (Header.Signature Toy.undecodable_header)
    = Err (root_error (foreign "failed to unmarshal proof"))
  ∧ run Toy.client0 (HeaderPtr (Some Toy.undecodable_header)) Toy.world0
    = Returns (None, None, Some (root_error (foreign "failed to unmarshal proof")))
        Toy.world0_undecoded
  ∧ (∀ parent msg,
       root_error (foreign "failed to unmarshal proof") ≠ Wrap parent msg)
  ∧ Cause (root_error (foreign "failed to unmarshal proof")) ≠ ErrInvalidHeader
  ∧ Cause (root_error (foreign "failed to unmarshal proof")) ≠ ErrInvalidSignature.
Proof.
  split; [reflexivity|]. split; [simpl; lia|]. split; [reflexivity|].
  split; [vm_compute; reflexivity|]. by repeat split.
Qed.

Lemma no_partial_update_witness :
  run Toy.client0 (HeaderPtr (Some Toy.forged_header)) Toy.world0
    = Returns
        (None, None,
         Some (Wrap (root_error ErrInvalidHeader) "signature verification failed"))
        Toy.world0_checked
  ∧ preserved Toy.world0 Toy.world0_checked
  ∧ (Some (Wrap (root_error ErrInvalidHeader) "signature verification failed") ≠ None →
     same_store Toy.world0 Toy.world0_checked
     ∧ (None : pointer) = None ∧ (None : pointer) = None)
  ∧ (Some (Wrap (root_error ErrInvalidHeader) "signature verification failed") = None →
     ∀ h, HeaderPtr (Some Toy.forged_header) = HeaderPtr h →
          is_Some (None : pointer) ∧ is_Some (None : pointer))
  ∧ ((None : pointer) = None ↔ (None : pointer) = None).
Proof.
  split; [vm_compute; reflexivity|].
  apply (no_partial_update (H := Toy.collaborators) Toy.client0 tt tt tt
           (HeaderPtr (Some Toy.forged_header)) Toy.world0).
  vm_compute. reflexivity.
Defined.

Lemma C5_neither_outcome_on_verified_proof_witness :
  (∃ r w',
     run Toy.client0 (DuplicateSignaturesPtr (Some Toy.equivocation)) Toy.world0
       = Returns r w'
     ∧ same_store Toy.world0 w')
  ∧ ¬ (∃ p q e w',
         run Toy.client0 (DuplicateSignaturesPtr (Some Toy.equivocation)) Toy.world0
           = Returns (Some p, Some q, e) w')
  ∧ ¬ (∃ p q e w',
         run Toy.client0 (DuplicateSignaturesPtr (Some Toy.equivocation)) Toy.world0
           = Returns (p, q, Some e) w').
Proof.
  apply (C5_neither_outcome_on_verified_proof (H := Toy.collaborators) Toy.client0
           tt tt tt Toy.equivocation Toy.world0 1%positive Toy.consensus0);
    [reflexivity | vm_compute; reflexivity | reflexivity | reflexivity].
Defined.

Lemma C6_either_signature_fails_witness :
  (statement_verifies tt Toy.consensus0 (DuplicateSignatures.SignatureOne Toy.forged_one)
     = false
   ∧ ∃ e, rejects_with (run Toy.client0 (DuplicateSignaturesPtr (Some Toy.forged_one))
                          Toy.world0)
            Toy.world0 (Wrap e "failed to verify signature one")
          ∧ Cause e = ErrInvalidSignature)
  ∧ (statement_verifies tt Toy.consensus0 (DuplicateSignatures.SignatureOne Toy.forged_two)
       = true
     ∧ statement_verifies tt Toy.consensus0
         (DuplicateSignatures.SignatureTwo Toy.forged_two) = false
     ∧ ∃ e, rejects_with (run Toy.client0 (DuplicateSignaturesPtr (Some Toy.forged_two))
                            Toy.world0)
              Toy.world0 (Wrap e "failed to verify signature two")
            ∧ Cause e = ErrInvalidSignature)
  ∧ (VerifyHeader Toy.client0 tt (DuplicateSignaturesPtr (Some Toy.equivocation))
       Toy.world0 = Returns None Toy.world0_proved
     ∧ statement_verifies tt Toy.consensus0
         (DuplicateSignatures.SignatureOne Toy.equivocation) = true
     ∧ statement_verifies tt Toy.consensus0
         (DuplicateSignatures.SignatureTwo Toy.equivocation) = true).
Proof.
  assert (L : consensusStates Toy.world0 !! 1%positive = Some Toy.consensus0)
    by (vm_compute; reflexivity).
  split; [|split].
  - split; [reflexivity|].
    destruct (C6_either_signature_fails (H := Toy.collaborators) Toy.client0 tt tt tt
                Toy.forged_one Toy.world0 1%positive Toy.consensus0 eq_refl L)
      as (first & _ & _).
    apply first. reflexivity.
  - split; [reflexivity|]. split; [reflexivity|].
    destruct (C6_either_signature_fails (H := Toy.collaborators) Toy.client0 tt tt tt
                Toy.forged_two Toy.world0 1%positive Toy.consensus0 eq_refl L)
      as (_ & second & _).
    apply second; reflexivity.
  - split; [vm_compute; reflexivity|].
    destruct (C6_either_signature_fails (H := Toy.collaborators) Toy.client0 tt tt tt
                Toy.equivocation Toy.world0 1%positive Toy.consensus0 eq_refl L)
      as (_ & _ & both).
    apply (both Toy.world0_proved). vm_compute. reflexivity.
Defined.

Lemma C7_verified_statements_accepted_witness :
  SignatureAndData.Data (DuplicateSignatures.SignatureOne Toy.twice_the_same)
    = SignatureAndData.Data (DuplicateSignatures.SignatureTwo Toy.twice_the_same)
  ∧ ∃ w',
      VerifyHeader Toy.client0 tt (DuplicateSignaturesPtr (Some Toy.twice_the_same))
        Toy.world0 = Returns None w'
      ∧ same_store Toy.world0 w'.
Proof.
  split; [reflexivity|].
  apply (C7_verified_statements_accepted (H := Toy.collaborators) Toy.client0 tt
           Toy.twice_the_same Toy.world0 1%positive Toy.consensus0);
    [reflexivity | vm_compute; reflexivity | reflexivity | reflexivity].
Defined.

(** C7, as first stated, fails on a proof made of the same valid statement
    twice: both signatures verify under the current key, the payloads are
    identical, and the proof is not rejected: [VerifyHeader] returns no
    error and so does [CheckHeaderAndUpdateState]. *)
Lemma C7_identical_payloads_not_rejected :
  DuplicateSignatures.SignatureOne Toy.twice_the_same
    = DuplicateSignatures.SignatureTwo Toy.twice_the_same
  ∧ statement_verifies tt Toy.consensus0
      (DuplicateSignatures.SignatureOne Toy.twice_the_same) = true
  ∧ VerifyHeader Toy.client0 tt (DuplicateSignaturesPtr (Some Toy.twice_the_same))
      Toy.world0 = Returns None Toy.world0_proved
  ∧ run Toy.client0 (DuplicateSignaturesPtr (Some Toy.twice_the_same)) Toy.world0
    = Returns (None, None, None) Toy.world0_proved.
Proof. repeat split; vm_compute; reflexivity. Qed.

Lemma C8_verified_proof_returns_nothing_witness :
  ∃ w',
    run Toy.client0 (DuplicateSignaturesPtr (Some Toy.equivocation)) Toy.world0
      = Returns (None, None, None) w'
    ∧ same_store Toy.world0 w'.
Proof.
  apply (C8_verified_proof_returns_nothing (H := Toy.collaborators) Toy.client0 tt tt tt
           Toy.equivocation Toy.world0 1%positive Toy.consensus0);
    [reflexivity | vm_compute; reflexivity | reflexivity | reflexivity].
Defined.

Lemma C9_rejection_idempotent_witness :
  run Toy.client0 (HeaderPtr (Some Toy.forged_header)) Toy.world0
    = Returns
        (None, None,
         Some (Wrap (root_error ErrInvalidHeader) "signature verification failed"))
        Toy.world0_checked
  ∧ same_store Toy.world0 Toy.world0_checked
  ∧ ∃ w2,
      run Toy.client0 (HeaderPtr (Some Toy.forged_header)) Toy.world0_checked
        = Returns
            (None, None,
             Some (Wrap (root_error ErrInvalidHeader) "signature verification failed"))
            w2
      ∧ same_store Toy.world0_checked w2.
Proof.
  split; [vm_compute; reflexivity|].
  apply (C9_rejection_idempotent (H := Toy.collaborators) Toy.client0 tt tt tt
           (HeaderPtr (Some Toy.forged_header)) Toy.world0).
  vm_compute. reflexivity.
Defined.

End Examples.

(** * Further properties of the three functions *)

Section Coverage.
Context `{Collaborators}.

(** ** The signature stage, call by call *)

Lemma verifyHeaderSignature_trace cs cdc h w a c :
  ClientState.ConsensusState cs = Some a →
  consensusStates w !! a = Some c →
  verifyHeaderSignature cs cdc h w =
    match HeaderSignBytes cdc h with
    | Err err => Returns (Some err) (with_calls [CallHeaderSignBytes] w)
    | Ok data =>
        match UnmarshalSignatureData cdc (Header.Signature h) with
        | Err err =>
            Returns (Some err)
              (with_calls [CallUnmarshalSignatureData; CallHeaderSignBytes] w)
        | Ok sigData =>
            match GetPubKey c with
            | Err err =>
                Returns (Some err)
                  (with_calls
                     [CallGetPubKey; CallUnmarshalSignatureData; CallHeaderSignBytes] w)
            | Ok publicKey =>
                Returns
                  match VerifySignature publicKey data sigData with
                  | Some err => Some (Wrap (root_error ErrInvalidHeader) (error_Error err))
                  | None => None
                  end
                  (with_calls
                     [CallVerifySignature; CallGetPubKey; CallUnmarshalSignatureData;
                      CallHeaderSignBytes] w)
            end
        end
    end.
Proof.
  intros P L. unfold verifyHeaderSignature, mbind, M_bind, mret, M_ret, call, with_calls.
  rewrite P. simpl.
  destruct (HeaderSignBytes cdc h) as [data|err]; [|done].
  destruct (UnmarshalSignatureData cdc _) as [sigData|err]; [|done].
  unfold load_consensus. simpl. rewrite L.
  destruct (GetPubKey c) as [publicKey|err]; [|done].
  by destruct (VerifySignature _ _ _).
Qed.

Lemma with_calls_same_store l w : same_store w (with_calls l w).
Proof. by split. Qed.

(** What [VerifyHeader] has established when it lets a header through. *)
Lemma VerifyHeader_passes_inv cs cdc h w w1 :
  VerifyHeader cs cdc (HeaderPtr (Some h)) w = Returns None w1 →
  Header.Sequence h = ClientState.Sequence cs
  ∧ w1 = with_calls
           [CallVerifySignature; CallGetPubKey; CallUnmarshalSignatureData;
            CallHeaderSignBytes] w
  ∧ ∃ a c data sigData publicKey,
      ClientState.ConsensusState cs = Some a
      ∧ consensusStates w !! a = Some c
      ∧ ConsensusState.Timestamp c ≤ Header.Timestamp h
      ∧ HeaderSignBytes cdc h = Ok data
      ∧ UnmarshalSignatureData cdc (Header.Signature h) = Ok sigData
      ∧ GetPubKey c = Ok publicKey
      ∧ VerifySignature publicKey data sigData = None.
Proof.
  intros V. unfold VerifyHeader in V.
  apply bind_inv in V as (h' & w0 & [= <- <-] & V).
  destruct (Header.Sequence h =? ClientState.Sequence cs) eqn:S; simpl in V; [|done].
  apply Z.eqb_eq in S.
  apply bind_inv in V as (c & w0 & Lc & V).
  apply load_consensus_inv in Lc as (-> & a & P & L).
  destruct (Header.Timestamp h <? ConsensusState.Timestamp c) eqn:T; [done|].
  apply Z.ltb_ge in T.
  rewrite (verifyHeaderSignature_trace cs cdc h w a c P L) in V.
  destruct (HeaderSignBytes cdc h) as [data|err] eqn:E1; [|done].
  destruct (UnmarshalSignatureData cdc _) as [sigData|err] eqn:E2; [|done].
  destruct (GetPubKey c) as [publicKey|err] eqn:E3; [|done].
  destruct (VerifySignature _ _ _) eqn:E4; [done|].
  injection V as <-. split; [done|]. split; [done|].
  eexists a, c, data, sigData, publicKey. done.
Qed.

Lemma VerifyHeader_passes cs cdc h w a c data sigData publicKey :
  Header.Sequence h = ClientState.Sequence cs →
  ClientState.ConsensusState cs = Some a →
  consensusStates w !! a = Some c →
  ConsensusState.Timestamp c ≤ Header.Timestamp h →
  HeaderSignBytes cdc h = Ok data →
  UnmarshalSignatureData cdc (Header.Signature h) = Ok sigData →
  GetPubKey c = Ok publicKey →
  VerifySignature publicKey data sigData = None →
  VerifyHeader cs cdc (HeaderPtr (Some h)) w
    = Returns None
        (with_calls
           [CallVerifySignature; CallGetPubKey; CallUnmarshalSignatureData;
            CallHeaderSignBytes] w).
Proof.
  intros S P L T E1 E2 E3 E4.
  rewrite (VerifyHeader_signature_stage cs cdc h w a c S P L T).
  rewrite (verifyHeaderSignature_trace cs cdc h w a c P L).
  by rewrite E1, E2, E3, E4.
Qed.

(** ** When a header is accepted *)

(** X1.  A single-update header is accepted, that is the run returns without
    error, exactly when its sequence is the client state's, the consensus
    state is there and not newer than the header, the sign-bytes can be
    built, the signature decodes, the registered key can be extracted and
    the primitive accepts the signature under that key. *)
Theorem accepted_iff_checks_pass cs ctx cdc clientStore h w :
  (∃ p q w',
     CheckHeaderAndUpdateState cs ctx cdc clientStore (HeaderPtr (Some h)) w
       = Returns (p, q, None) w')
  ↔ (Header.Sequence h = ClientState.Sequence cs
     ∧ ∃ a c data sigData publicKey,
         ClientState.ConsensusState cs = Some a
         ∧ consensusStates w !! a = Some c
         ∧ ConsensusState.Timestamp c ≤ Header.Timestamp h
         ∧ HeaderSignBytes cdc h = Ok data
         ∧ UnmarshalSignatureData cdc (Header.Signature h) = Ok sigData
         ∧ GetPubKey c = Ok publicKey
         ∧ VerifySignature publicKey data sigData = None).
Proof.
  split.
  - intros (p & q & w' & E).
    apply CheckHeaderAndUpdateState_inv in E
      as [(e & _ & [=])|[(h' & w1 & p' & q' & [= <-] & V & _)|(N & _)]].
    + apply VerifyHeader_passes_inv in V as (S & _ & K). done.
    + by destruct (N (Some h)).
  - intros (S & a & c & data & sigData & publicKey & P & L & T & E1 & E2 & E3 & E4).
    pose proof (VerifyHeader_passes cs cdc h w a c data sigData publicKey
                  S P L T E1 E2 E3 E4) as V.
    rewrite (CheckHeaderAndUpdateState_accepts cs ctx cdc clientStore h w _ V).
    simpl. eauto.
Qed.

(** A run on a single-update header returns whenever the consensus state is
    there. *)
Lemma header_run_returns cs ctx cdc clientStore h w a c :
  ClientState.ConsensusState cs = Some a →
  consensusStates w !! a = Some c →
  ∃ r w', CheckHeaderAndUpdateState cs ctx cdc clientStore (HeaderPtr (Some h)) w
            = Returns r w'.
Proof.
  intros P L.
  assert (∃ e w1, VerifyHeader cs cdc (HeaderPtr (Some h)) w = Returns e w1)
    as (e & w1 & V).
  { destruct (decide (Header.Sequence h = ClientState.Sequence cs)) as [S|S].
    - destruct (decide (Header.Timestamp h < ConsensusState.Timestamp c)) as [T|T].
      + rewrite (VerifyHeader_timestamp_regression cs cdc h w a c S P L T). eauto.
      + rewrite (VerifyHeader_signature_stage cs cdc h w a c S P L ltac:(lia)).
        destruct (verifyHeaderSignature_returns cs cdc h w a c P L) as (w1 & _ & ->).
        eauto.
    - rewrite (VerifyHeader_sequence_mismatch cs cdc h w S). eauto. }
  destruct e as [e|].
  - rewrite (CheckHeaderAndUpdateState_rejects cs ctx cdc clientStore _ w e w1 V). eauto.
  - rewrite (CheckHeaderAndUpdateState_accepts cs ctx cdc clientStore h w w1 V).
    simpl. eauto.
Qed.

(** X2.  A run on a value of type [*Header] panics in two cases only: the
    pointer is nil, or the sequence matches and the client state's consensus
    state pointer is nil or designates no cell (the timestamp comparison
    dereferences it).  With a sequence mismatch the consensus state is never
    dereferenced. *)
Theorem header_run_panics_iff cs ctx cdc clientStore hp w :
  CheckHeaderAndUpdateState cs ctx cdc clientStore (HeaderPtr hp) w = Panic
  ↔ (hp = None
     ∨ ∃ h, hp = Some h
         ∧ Header.Sequence h = ClientState.Sequence cs
         ∧ ∀ a, ClientState.ConsensusState cs = Some a → consensusStates w !! a = None).
Proof.
  destruct hp as [h|]; [|split; [by left|done]].
  destruct (decide (Header.Sequence h = ClientState.Sequence cs)) as [S|S].
  - destruct (ClientState.ConsensusState cs) as [a|] eqn:P.
    + destruct (consensusStates w !! a) as [c|] eqn:L.
      * destruct (header_run_returns cs ctx cdc clientStore h w a c P L) as (r & w' & ->).
        split; [done|].
        intros [[=]|(h' & [= <-] & _ & N)]. specialize (N a eq_refl). congruence.
      * split.
        -- intros _. right. exists h. repeat split; [done|]. by intros ? [= <-].
        -- intros _. unfold CheckHeaderAndUpdateState, VerifyHeader, mbind, M_bind,
             deref, mret, M_ret.
           rewrite (proj2 (Z.eqb_eq _ _) S), P. simpl. by rewrite L.
    + split.
      * intros _. right. exists h. by repeat split.
      * intros _. unfold CheckHeaderAndUpdateState, VerifyHeader, mbind, M_bind,
          deref, mret, M_ret.
        by rewrite (proj2 (Z.eqb_eq _ _) S), P.
  - rewrite (CheckHeaderAndUpdateState_rejects cs ctx cdc clientStore _ w _ w
               (VerifyHeader_sequence_mismatch cs cdc h w S)).
    split; [done|]. intros [[=]|(h' & [= <-] & S' & _)]. done.
Qed.

(** ** Results without error *)

(** X3.  A result without error comes from a non-nil [*Header], and then
    both new states are returned, or from a non-nil [*DuplicateSignatures]
    that got through [VerifyHeader], and then no state is returned.  A
    header of any other dynamic type, a nil interface or a nil pointer never
    gives a result without error. *)
Theorem nil_error_classified cs ctx cdc clientStore header w p q w' :
  CheckHeaderAndUpdateState cs ctx cdc clientStore header w = Returns (p, q, None) w' →
  (∃ h, header = HeaderPtr (Some h) ∧ is_Some p ∧ is_Some q)
  ∨ (∃ d, header = DuplicateSignaturesPtr (Some d)
          ∧ p = None ∧ q = None
          ∧ VerifyHeader cs cdc header w = Returns None w').
Proof.
  intros E. apply CheckHeaderAndUpdateState_inv in E
    as [(e & _ & [=])
       |[(h & w1 & p' & q' & -> & _ & [= -> ->] & _)|(N & V & [= -> ->])]].
  - left. eauto.
  - right. destruct header as [hp|[d|]|t|]; try done.
    + by destruct (N hp).
    + eauto.
Qed.

(** X4.  [VerifyHeader] only reads: whatever the header and whatever the
    verdict, when it returns no cell has been written or allocated. *)
Theorem VerifyHeader_only_reads cs cdc header w verdict w' :
  VerifyHeader cs cdc header w = Returns verdict w' →
  clientStates w' = clientStates w ∧ consensusStates w' = consensusStates w.
Proof.
  intros V. apply VerifyHeader_same_store in V as [-> ->]. done.
Qed.

(** ** The store after an accepted update *)

Lemma accepted_inv cs ctx cdc clientStore h w r w' :
  CheckHeaderAndUpdateState cs ctx cdc clientStore (HeaderPtr (Some h)) w
    = Returns (r, None) w' →
  ∃ p q,
    r = (Some p, Some q)
    ∧ clientStates w !! p = None
    ∧ consensusStates w !! q = None
    ∧ clientStates w' =
        <[p := ClientState.mk (wrap64 (ClientState.Sequence cs + 1)) (Some q)]>
          (clientStates w)
    ∧ consensusStates w' =
        <[q := ConsensusState.mk (Header.NewPublicKey h) (Header.NewDiversifier h)
                  (Header.Timestamp h)]> (consensusStates w)
    ∧ VerifyHeader cs cdc (HeaderPtr (Some h)) w
      = Returns None
          (with_calls
             [CallVerifySignature; CallGetPubKey; CallUnmarshalSignatureData;
              CallHeaderSignBytes] w).
Proof.
  intros E. destruct r as [p' q'].
  apply CheckHeaderAndUpdateState_inv in E
    as [(e & _ & [=])
       |[(h' & w1 & p & q & [= <-] & V & [= -> ->] & Fp & Fq & Ec & Es)|(N & _)]];
    [|by destruct (N (Some h))].
  pose proof (VerifyHeader_passes_inv _ _ _ _ _ V) as (_ & -> & _).
  exists p, q. done.
Qed.

(** X5.  An accepted update replaces the consensus state and does not
    write to the old one: the old cell is still there with its value, the
    new consensus state sits at another address, and its timestamp is not
    earlier than the old one's. *)
Theorem accepted_update_replaces_consensus cs ctx cdc clientStore h w p q w' :
  CheckHeaderAndUpdateState cs ctx cdc clientStore (HeaderPtr (Some h)) w
    = Returns (p, q, None) w' →
  ∃ a c s,
    ClientState.ConsensusState cs = Some a
    ∧ consensusStates w !! a = Some c
    ∧ consensusStates w' !! a = Some c
    ∧ q ≠ Some a
    ∧ (∃ b, q = Some b ∧ consensusStates w' !! b = Some s)
    ∧ ConsensusState.Timestamp c ≤ ConsensusState.Timestamp s.
Proof.
  intros E. apply accepted_inv in E as (p0 & q0 & [= -> ->] & Fp & Fq & Ec & Es & V).
  apply VerifyHeader_passes_inv in V
    as (S & _ & a & c & data & sigData & publicKey & P & L & T & _).
  assert (q0 ≠ a) by congruence.
  eexists a, c, _. split; [done|]. split; [done|].
  split; [by rewrite Es, lookup_insert_ne|].
  split; [congruence|].
  split; [exists q0; split; [done|]; by rewrite Es, lookup_insert_eq|].
  done.
Qed.

Lemma wrap64_succ_ne x : x ≠ wrap64 (x + 1).
Proof.
  unfold wrap64. intros E.
  pose proof (Z.mod_pos_bound (x + 1) (2 ^ 64) ltac:(lia)) as B.
  destruct (decide (x + 1 < 2 ^ 64)) as [Lt|Ge].
  - rewrite Z.mod_small in E by lia. lia.
  - assert (x = 2 ^ 64 - 1) as -> by lia.
    replace (2 ^ 64 - 1 + 1) with (2 ^ 64) in E by lia.
    rewrite Z.mod_same in E by lia. lia.
Qed.

(** X6.  Replay protection across calls: once a header has been accepted,
    the same header presented to the client state that was returned is
    rejected with the sequence error, and that run touches nothing. *)
Theorem replay_against_new_state_rejected cs ctx cdc clientStore h w p q w' c' :
  CheckHeaderAndUpdateState cs ctx cdc clientStore (HeaderPtr (Some h)) w
    = Returns (Some p, q, None) w' →
  clientStates w' !! p = Some c' →
  CheckHeaderAndUpdateState c' ctx cdc clientStore (HeaderPtr (Some h)) w'
    = Returns
        (None, None,
         Some (sequence_mismatch (Header.Sequence h) (ClientState.Sequence c'))) w'.
Proof.
  intros E Lp. apply accepted_inv in E as (p0 & q0 & [= -> ->] & Fp & Fq & Ec & Es & V).
  apply VerifyHeader_passes_inv in V as (S & _).
  rewrite Ec, lookup_insert_eq in Lp. injection Lp as <-.
  apply CheckHeaderAndUpdateState_rejects, VerifyHeader_sequence_mismatch.
  simpl. rewrite S. apply wrap64_succ_ne.
Qed.

(** X7.  The function keeps no record of what it accepted: a caller that
    presents the same header with the client state it had before the update
    gets it accepted again, with two more new states at addresses of their
    own.  Only passing on the returned client state makes a replay fail. *)
Theorem stale_state_accepts_again cs ctx cdc clientStore h w p q w' :
  CheckHeaderAndUpdateState cs ctx cdc clientStore (HeaderPtr (Some h)) w
    = Returns (p, q, None) w' →
  ∃ p2 q2 w'',
    CheckHeaderAndUpdateState cs ctx cdc clientStore (HeaderPtr (Some h)) w'
      = Returns (Some p2, Some q2, None) w''
    ∧ p ≠ Some p2 ∧ q ≠ Some q2.
Proof.
  intros E. apply accepted_inv in E as (p0 & q0 & [= -> ->] & Fp & Fq & Ec & Es & V).
  apply VerifyHeader_passes_inv in V
    as (S & _ & a & c & data & sigData & publicKey & P & L & T & E1 & E2 & E3 & E4).
  assert (L' : consensusStates w' !! a = Some c).
  { rewrite Es, lookup_insert_ne; [done|congruence]. }
  pose proof (VerifyHeader_passes cs cdc h w' a c data sigData publicKey
                S P L' T E1 E2 E3 E4) as V'.
  rewrite (CheckHeaderAndUpdateState_accepts cs ctx cdc clientStore h w' _ V').
  simpl. eexists _, _, _. split; [reflexivity|].
  split; intros [= Eq].
  - pose proof (is_fresh (dom (clientStates w'))) as F. rewrite <- Eq in F.
    apply F, elem_of_dom. rewrite Ec, lookup_insert_eq. done.
  - pose proof (is_fresh (dom (consensusStates w'))) as F. rewrite <- Eq in F.
    apply F, elem_of_dom. rewrite Es, lookup_insert_eq. done.
Qed.

(** X8.  Authority moves with the update: a header accepted against the
    client state returned by an accepted update has the next sequence number
    (modulo [2^64]), is not older than the header accepted before, and its
    signature verifies under the key extracted from the consensus state that
    the earlier header installed, the one holding its [NewPublicKey]. *)
Theorem next_update_under_new_key cs ctx cdc clientStore h w p q w' c' h2 p2 q2 w2 :
  CheckHeaderAndUpdateState cs ctx cdc clientStore (HeaderPtr (Some h)) w
    = Returns (Some p, q, None) w' →
  clientStates w' !! p = Some c' →
  CheckHeaderAndUpdateState c' ctx cdc clientStore (HeaderPtr (Some h2)) w'
    = Returns (p2, q2, None) w2 →
  Header.Sequence h2 = wrap64 (ClientState.Sequence cs + 1)
  ∧ Header.Timestamp h ≤ Header.Timestamp h2
  ∧ ∃ data sigData publicKey,
      HeaderSignBytes cdc h2 = Ok data
      ∧ UnmarshalSignatureData cdc (Header.Signature h2) = Ok sigData
      ∧ GetPubKey (ConsensusState.mk (Header.NewPublicKey h) (Header.NewDiversifier h)
                     (Header.Timestamp h)) = Ok publicKey
      ∧ VerifySignature publicKey data sigData = None.
Proof.
  intros E Lp E2.
  apply accepted_inv in E as (p0 & q0 & [= -> ->] & Fp & Fq & Ec & Es & _).
  rewrite Ec, lookup_insert_eq in Lp. injection Lp as <-.
  apply accepted_inv in E2 as (p3 & q3 & _ & _ & _ & _ & _ & V).
  apply VerifyHeader_passes_inv in V
    as (S & _ & a & c & data & sigData & publicKey & P & L & T & K1 & K2 & K3 & K4).
  simpl in S, P. injection P as <-.
  rewrite Es, lookup_insert_eq in L. injection L as <-.
  split; [done|]. split; [done|]. eauto 10.
Qed.

(** ** The signature stage and the errors of the header path *)

(** X9.  Past the sequence and timestamp checks, the collaborators are
    called in the order sign-bytes, decoding, key extraction, verification,
    and none is called once one has failed: the record of calls grows by
    exactly the calls up to the first failure. *)
Theorem signature_stage_stops_at_first_failure cs cdc h w a c :
  Header.Sequence h = ClientState.Sequence cs →
  ClientState.ConsensusState cs = Some a →
  consensusStates w !! a = Some c →
  ConsensusState.Timestamp c ≤ Header.Timestamp h →
  let run := VerifyHeader cs cdc (HeaderPtr (Some h)) w in
  (∀ err,
     HeaderSignBytes cdc h = Err err →
     run = Returns (Some err) (with_calls [CallHeaderSignBytes] w))
  ∧ (∀ data err,
       HeaderSignBytes cdc h = Ok data →
       UnmarshalSignatureData cdc (Header.Signature h) = Err err →
       run = Returns (Some err)
               (with_calls [CallUnmarshalSignatureData; CallHeaderSignBytes] w))
  ∧ (∀ data sigData err,
       HeaderSignBytes cdc h = Ok data →
       UnmarshalSignatureData cdc (Header.Signature h) = Ok sigData →
       GetPubKey c = Err err →
       run = Returns (Some err)
               (with_calls
                  [CallGetPubKey; CallUnmarshalSignatureData; CallHeaderSignBytes] w))
  ∧ (∀ data sigData publicKey,
       HeaderSignBytes cdc h = Ok data →
       UnmarshalSignatureData cdc (Header.Signature h) = Ok sigData →
       GetPubKey c = Ok publicKey →
       ∃ verdict,
         run = Returns verdict
                 (with_calls
                    [CallVerifySignature; CallGetPubKey; CallUnmarshalSignatureData;
                     CallHeaderSignBytes] w)).
Proof.
  intros S P L T run. unfold run.
  rewrite (VerifyHeader_signature_stage cs cdc h w a c S P L T).
  rewrite (verifyHeaderSignature_trace cs cdc h w a c P L).
  split; [|split; [|split]].
  - by intros err ->.
  - by intros data err -> ->.
  - by intros data sigData err -> -> ->.
  - intros data sigData publicKey -> -> ->. eauto.
Qed.

(** X10.  The errors of [VerifyHeader] on a single-update header are the
    sequence error when the sequences differ, the timestamp error when the
    header is older than the consensus state, the error of the first
    collaborator that fails, unchanged, and the solo machine
    [ErrInvalidHeader] wrapping the text of the primitive's error; there is
    no other. *)
Theorem header_rejection_classified cs cdc h w e w' :
  VerifyHeader cs cdc (HeaderPtr (Some h)) w = Returns (Some e) w' →
  (Header.Sequence h ≠ ClientState.Sequence cs
   ∧ e = sequence_mismatch (Header.Sequence h) (ClientState.Sequence cs))
  ∨ (Header.Sequence h = ClientState.Sequence cs
     ∧ ∃ a c,
         ClientState.ConsensusState cs = Some a
         ∧ consensusStates w !! a = Some c
         ∧ ((Header.Timestamp h < ConsensusState.Timestamp c
             ∧ e = timestamp_regression (Header.Timestamp h) (ConsensusState.Timestamp c))
            ∨ (ConsensusState.Timestamp c ≤ Header.Timestamp h
               ∧ (HeaderSignBytes cdc h = Err e
                  ∨ ∃ data,
                      HeaderSignBytes cdc h = Ok data
                      ∧ (UnmarshalSignatureData cdc (Header.Signature h) = Err e
                         ∨ ∃ sigData,
                             UnmarshalSignatureData cdc (Header.Signature h) = Ok sigData
                             ∧ (GetPubKey c = Err e
                                ∨ ∃ publicKey err,
                                    GetPubKey c = Ok publicKey
                                    ∧ VerifySignature publicKey data sigData = Some err
                                    ∧ e = Wrap (root_error ErrInvalidHeader)
                                            (error_Error err))))))).
Proof.
  intros V. unfold VerifyHeader in V.
  apply bind_inv in V as (h' & w0 & [= <- <-] & V).
  destruct (Header.Sequence h =? ClientState.Sequence cs) eqn:S; simpl in V.
  - apply Z.eqb_eq in S. right. split; [done|].
    apply bind_inv in V as (c & w0 & Lc & V).
    apply load_consensus_inv in Lc as (-> & a & P & L).
    exists a, c. split; [done|]. split; [done|].
    destruct (Header.Timestamp h <? ConsensusState.Timestamp c) eqn:T.
    + apply Z.ltb_lt in T. left. injection V as <- <-. done.
    + apply Z.ltb_ge in T. right. split; [done|].
      rewrite (verifyHeaderSignature_trace cs cdc h w a c P L) in V.
      destruct (HeaderSignBytes cdc h) as [data|err] eqn:E1;
        [|injection V as <- <-; by left].
      right. exists data. split; [done|].
      destruct (UnmarshalSignatureData cdc _) as [sigData|err] eqn:E2;
        [|injection V as <- <-; by left].
      right. exists sigData. split; [done|].
      destruct (GetPubKey c) as [publicKey|err] eqn:E3;
        [|injection V as <- <-; by left].
      right. destruct (VerifySignature _ _ _) as [err|] eqn:E4; [|done].
      injection V as <- <-. by exists publicKey, err.
  - apply Z.eqb_neq in S. left. injection V as <- <-. done.
Qed.

(** ** [update] on its own *)

(** X11.  [update] writes through the pointer it is given: the cell of the
    client state then holds the sequence plus one (modulo [2^64]) and points
    to a consensus state allocated at an address that was free, built from
    the header; the client pointer returned is the one given.  Every other
    cell of both kinds keeps its value and no collaborator is called. *)
Theorem update_writes_in_place a h w c :
  clientStates w !! a = Some c →
  ∃ q w',
    update (Some a) (Some h) w = Returns (Some a, Some q) w'
    ∧ consensusStates w !! q = None
    ∧ clientStates w' !! a
      = Some (ClientState.mk (wrap64 (ClientState.Sequence c + 1)) (Some q))
    ∧ consensusStates w' !! q
      = Some (ConsensusState.mk (Header.NewPublicKey h) (Header.NewDiversifier h)
                (Header.Timestamp h))
    ∧ (∀ b, b ≠ a → clientStates w' !! b = clientStates w !! b)
    ∧ (∀ b, b ≠ q → consensusStates w' !! b = consensusStates w !! b)
    ∧ calls w' = calls w.
Proof.
  intros L. rewrite (update_returns a h w c L). simpl.
  eexists _, _. split; [reflexivity|]. simpl.
  split; [apply not_elem_of_dom, is_fresh|].
  rewrite !lookup_insert_eq. repeat split; try done.
  - intros b N. by rewrite lookup_insert_ne.
  - intros b N. by rewrite lookup_insert_ne.
Qed.

(** X12.  [update] panics exactly when the header pointer is nil, the
    client state pointer is nil, or the client state pointer designates no
    cell. *)
Theorem update_panics_iff p hp w :
  update p hp w = Panic
  ↔ (hp = None ∨ p = None ∨ ∃ a, p = Some a ∧ clientStates w !! a = None).
Proof.
  destruct hp as [h|]; [|split; [by left|done]].
  destruct p as [a|]; [|split; [by right; left|done]].
  destruct (clientStates w !! a) as [c|] eqn:L.
  - rewrite (update_returns a h w c L). simpl. split; [done|].
    intros [[=]|[[=]|(a' & [= <-] & N)]]. congruence.
  - split; [intros _; right; right; eauto|]. intros _.
    unfold update, mbind, M_bind, mret, M_ret, deref, alloc_consensus, load_client.
    simpl. by rewrite L.
Qed.

(** ** Headers that are not single updates *)

(** X13.  For a header that is not of type [*Header], whatever the verdict,
    no client state and no consensus state is returned and no cell is
    written or allocated: this code neither updates nor freezes the client
    on a misbehaviour proof. *)
Theorem non_header_never_updates cs ctx cdc clientStore header w p q e w' :
  (∀ hp, header ≠ HeaderPtr hp) →
  CheckHeaderAndUpdateState cs ctx cdc clientStore header w = Returns (p, q, e) w' →
  p = None ∧ q = None
  ∧ clientStates w' = clientStates w ∧ consensusStates w' = consensusStates w.
Proof.
  intros N E. apply CheckHeaderAndUpdateState_inv in E
    as [(e' & V & [= -> -> ->])
       |[(h & w1 & p' & q' & -> & _)|(_ & V & [= -> -> ->])]];
    [| by destruct (N (Some h)) |];
    apply VerifyHeader_same_store in V as [-> ->]; done.
Qed.

End Coverage.

(** * Instances of the further properties *)

Section CoverageExamples.
Local Existing Instance Toy.collaborators.

Abbreviation run cs header w := (CheckHeaderAndUpdateState cs tt tt tt header w).

Lemma accepted_iff_checks_pass_witness :
  ∃ p q w', run Toy.client0 (HeaderPtr (Some Toy.good_header)) Toy.world0
            = Returns (p, q, None) w'.
Proof.
  apply (proj2 (accepted_iff_checks_pass (H := Toy.collaborators) Toy.client0 tt tt tt
                  Toy.good_header Toy.world0)).
  split; [reflexivity|].
  exists 1%positive, Toy.consensus0, [Toy.b2], [Toy.b1; Toy.b2], [Toy.b1].
  split; [reflexivity|]. split; [vm_compute; reflexivity|]. split; [simpl; lia|].
  repeat split; reflexivity.
Defined.

Lemma header_run_panics_iff_witness :
  run (ClientState.mk 5 None) (HeaderPtr (Some Toy.good_header)) Toy.world0 = Panic.
Proof.
  apply (proj2 (header_run_panics_iff (H := Toy.collaborators) (ClientState.mk 5 None)
                  tt tt tt (Some Toy.good_header) Toy.world0)).
  right. exists Toy.good_header. split; [reflexivity|]. split; [reflexivity|].
  intros a E. discriminate E.
Defined.

Lemma nil_error_classified_witness :
  run Toy.client0 (DuplicateSignaturesPtr (Some Toy.equivocation)) Toy.world0
    = Returns (None, None, None) Toy.world0_proved
  ∧ ((∃ h, DuplicateSignaturesPtr (Some Toy.equivocation) = HeaderPtr (Some h)
           ∧ is_Some (None : pointer) ∧ is_Some (None : pointer))
     ∨ (∃ d, DuplicateSignaturesPtr (Some Toy.equivocation)
             = DuplicateSignaturesPtr (Some d)
             ∧ (None : pointer) = None ∧ (None : pointer) = None
             ∧ VerifyHeader Toy.client0 tt
                 (DuplicateSignaturesPtr (Some Toy.equivocation)) Toy.world0
               = Returns None Toy.world0_proved)).
Proof.
  split; [vm_compute; reflexivity|].
  apply (nil_error_classified (H := Toy.collaborators) Toy.client0 tt tt tt
           (DuplicateSignaturesPtr (Some Toy.equivocation)) Toy.world0).
  vm_compute. reflexivity.
Defined.

Lemma VerifyHeader_only_reads_witness :
  VerifyHeader Toy.client0 tt (HeaderPtr (Some Toy.forged_header)) Toy.world0
    = Returns (Some (Wrap (root_error ErrInvalidHeader) "signature verification failed"))
        Toy.world0_checked
  ∧ clientStates Toy.world0_checked = clientStates Toy.world0
  ∧ consensusStates Toy.world0_checked = consensusStates Toy.world0.
Proof.
  split; [vm_compute; reflexivity|].
  apply (VerifyHeader_only_reads (H := Toy.collaborators) Toy.client0 tt
           (HeaderPtr (Some Toy.forged_header)) Toy.world0
           (Some (Wrap (root_error ErrInvalidHeader) "signature verification failed"))).
  vm_compute. reflexivity.
Defined.

Lemma accepted_update_replaces_consensus_witness :
  run Toy.client0 (HeaderPtr (Some Toy.good_header)) Toy.world0
    = Returns (Some 2%positive, Some 2%positive, None) Toy.world1
  ∧ ∃ a c s,
      ClientState.ConsensusState Toy.client0 = Some a
      ∧ consensusStates Toy.world0 !! a = Some c
      ∧ consensusStates Toy.world1 !! a = Some c
      ∧ Some 2%positive ≠ Some a
      ∧ (∃ b, Some 2%positive = Some b ∧ consensusStates Toy.world1 !! b = Some s)
      ∧ ConsensusState.Timestamp c ≤ ConsensusState.Timestamp s.
Proof.
  split; [vm_compute; reflexivity|].
  apply (accepted_update_replaces_consensus (H := Toy.collaborators) Toy.client0 tt tt tt
           Toy.good_header Toy.world0 (Some 2%positive) (Some 2%positive) Toy.world1).
  vm_compute. reflexivity.
Defined.

Lemma replay_against_new_state_rejected_witness :
  run Toy.client0 (HeaderPtr (Some Toy.good_header)) Toy.world0
    = Returns (Some 2%positive, Some 2%positive, None) Toy.world1
  ∧ clientStates Toy.world1 !! 2%positive = Some Toy.client1
  ∧ run Toy.client1 (HeaderPtr (Some Toy.good_header)) Toy.world1
    = Returns (None, None, Some (sequence_mismatch 5 6)) Toy.world1.
Proof.
  assert (E : run Toy.client0 (HeaderPtr (Some Toy.good_header)) Toy.world0
              = Returns (Some 2%positive, Some 2%positive, None) Toy.world1)
    by (vm_compute; reflexivity).
  assert (L : clientStates Toy.world1 !! 2%positive = Some Toy.client1)
    by (vm_compute; reflexivity).
  split; [exact E|]. split; [exact L|].
  exact (replay_against_new_state_rejected (H := Toy.collaborators) Toy.client0 tt tt tt
           Toy.good_header Toy.world0 2%positive (Some 2%positive) Toy.world1
           Toy.client1 E L).
Defined.

Lemma stale_state_accepts_again_witness :
  run Toy.client0 (HeaderPtr (Some Toy.good_header)) Toy.world0
    = Returns (Some 2%positive, Some 2%positive, None) Toy.world1
  ∧ ∃ p2 q2 w'',
      run Toy.client0 (HeaderPtr (Some Toy.good_header)) Toy.world1
        = Returns (Some p2, Some q2, None) w''
      ∧ Some 2%positive ≠ Some p2 ∧ Some 2%positive ≠ Some q2.
Proof.
  split; [vm_compute; reflexivity|].
  apply (stale_state_accepts_again (H := Toy.collaborators) Toy.client0 tt tt tt
           Toy.good_header Toy.world0 (Some 2%positive) (Some 2%positive) Toy.world1).
  vm_compute. reflexivity.
Defined.

Lemma next_update_under_new_key_witness :
  (∃ w2, run Toy.client1 (HeaderPtr (Some Toy.next_header)) Toy.world1
         = Returns (Some 3%positive, Some 3%positive, None) w2)
  ∧ Header.Sequence Toy.next_header = wrap64 (5 + 1)
  ∧ Header.Timestamp Toy.good_header ≤ Header.Timestamp Toy.next_header
  ∧ ∃ data sigData publicKey,
      HeaderSignBytes tt Toy.next_header = Ok data
      ∧ UnmarshalSignatureData tt (Header.Signature Toy.next_header) = Ok sigData
      ∧ GetPubKey Toy.consensus1 = Ok publicKey
      ∧ VerifySignature publicKey data sigData = None.
Proof.
  assert (E : run Toy.client0 (HeaderPtr (Some Toy.good_header)) Toy.world0
              = Returns (Some 2%positive, Some 2%positive, None) Toy.world1)
    by (vm_compute; reflexivity).
  assert (L : clientStates Toy.world1 !! 2%positive = Some Toy.client1)
    by (vm_compute; reflexivity).
  assert (E2 : ∃ w2, run Toy.client1 (HeaderPtr (Some Toy.next_header)) Toy.world1
                     = Returns (Some 3%positive, Some 3%positive, None) w2)
    by (eexists; vm_compute; reflexivity).
  split; [exact E2|]. destruct E2 as [w2 E2].
  exact (next_update_under_new_key (H := Toy.collaborators) Toy.client0 tt tt tt
           Toy.good_header Toy.world0 2%positive (Some 2%positive) Toy.world1
           Toy.client1 Toy.next_header (Some 3%positive) (Some 3%positive) w2 E L E2).
Defined.

Lemma signature_stage_stops_at_first_failure_witness :
  VerifyHeader Toy.client0 tt (HeaderPtr (Some Toy.undecodable_header)) Toy.world0
    = Returns (Some (root_error (foreign "failed to unmarshal proof")))
        (with_calls [CallUnmarshalSignatureData; CallHeaderSignBytes] Toy.world0)
  ∧ ∃ verdict,
      VerifyHeader Toy.client0 tt (HeaderPtr (Some Toy.forged_header)) Toy.world0
        = Returns verdict
            (with_calls
               [CallVerifySignature; CallGetPubKey; CallUnmarshalSignatureData;
                CallHeaderSignBytes] Toy.world0).
Proof.
  assert (L : consensusStates Toy.world0 !! 1%positive = Some Toy.consensus0)
    by (vm_compute; reflexivity).
  split.
  - assert (T : ConsensusState.Timestamp Toy.consensus0
                ≤ Header.Timestamp Toy.undecodable_header) by (simpl; lia).
    destruct (signature_stage_stops_at_first_failure (H := Toy.collaborators)
                Toy.client0 tt Toy.undecodable_header Toy.world0 1%positive
                Toy.consensus0 eq_refl eq_refl L T) as (_ & decoding & _).
    apply (decoding [Toy.b2]); reflexivity.
  - assert (T : ConsensusState.Timestamp Toy.consensus0
                ≤ Header.Timestamp Toy.forged_header) by (simpl; lia).
    destruct (signature_stage_stops_at_first_failure (H := Toy.collaborators)
                Toy.client0 tt Toy.forged_header Toy.world0 1%positive
                Toy.consensus0 eq_refl eq_refl L T) as (_ & _ & _ & verification).
    apply (verification [Toy.b2] [Toy.b2; Toy.b2] [Toy.b1]); reflexivity.
Defined.

Lemma header_rejection_classified_witness :
  VerifyHeader Toy.client0 tt (HeaderPtr (Some Toy.old_header)) Toy.world0
    = Returns (Some (timestamp_regression 99 100)) Toy.world0
  ∧ ((Header.Sequence Toy.old_header ≠ ClientState.Sequence Toy.client0
      ∧ timestamp_regression 99 100
        = sequence_mismatch (Header.Sequence Toy.old_header)
            (ClientState.Sequence Toy.client0))
     ∨ (Header.Sequence Toy.old_header = ClientState.Sequence Toy.client0
        ∧ ∃ a c,
            ClientState.ConsensusState Toy.client0 = Some a
            ∧ consensusStates Toy.world0 !! a = Some c
            ∧ ((Header.Timestamp Toy.old_header < ConsensusState.Timestamp c
                ∧ timestamp_regression 99 100
                  = timestamp_regression (Header.Timestamp Toy.old_header)
                      (ConsensusState.Timestamp c))
               ∨ (ConsensusState.Timestamp c ≤ Header.Timestamp Toy.old_header
                  ∧ (HeaderSignBytes tt Toy.old_header = Err (timestamp_regression 99 100)
                     ∨ ∃ data,
                         HeaderSignBytes tt Toy.old_header = Ok data
                         ∧ (UnmarshalSignatureData tt (Header.Signature Toy.old_header)
                            = Err (timestamp_regression 99 100)
                            ∨ ∃ sigData,
                                UnmarshalSignatureData tt
                                  (Header.Signature Toy.old_header) = Ok sigData
                                ∧ (GetPubKey c = Err (timestamp_regression 99 100)
                                   ∨ ∃ publicKey err,
                                       GetPubKey c = Ok publicKey
                                       ∧ VerifySignature publicKey data sigData = Some err
                                       ∧ timestamp_regression 99 100
                                         = Wrap (root_error ErrInvalidHeader)
                                             (error_Error err)))))))).
Proof.
  split; [vm_compute; reflexivity|].
  apply (header_rejection_classified (H := Toy.collaborators) Toy.client0 tt
           Toy.old_header Toy.world0 (timestamp_regression 99 100) Toy.world0).
  vm_compute. reflexivity.
Defined.

Lemma update_writes_in_place_witness :
  clientStates Toy.world0 !! 1%positive = Some Toy.client0
  ∧ ∃ q w',
      update (Some 1%positive) (Some Toy.good_header) Toy.world0
        = Returns (Some 1%positive, Some q) w'
      ∧ consensusStates Toy.world0 !! q = None
      ∧ clientStates w' !! 1%positive
        = Some (ClientState.mk (wrap64 (5 + 1)) (Some q))
      ∧ consensusStates w' !! q = Some Toy.consensus1
      ∧ (∀ b, b ≠ 1%positive → clientStates w' !! b = clientStates Toy.world0 !! b)
      ∧ (∀ b, b ≠ q → consensusStates w' !! b = consensusStates Toy.world0 !! b)
      ∧ calls w' = calls Toy.world0.
Proof.
  assert (L : clientStates Toy.world0 !! 1%positive = Some Toy.client0)
    by (vm_compute; reflexivity).
  split; [exact L|].
  exact (update_writes_in_place 1%positive Toy.good_header Toy.world0 Toy.client0 L).
Defined.

Lemma update_panics_iff_witness :
  update None (Some Toy.good_header) Toy.world0 = Panic
  ∧ update (Some 7%positive) (Some Toy.good_header) Toy.world0 = Panic.
Proof.
  split.
  - apply (proj2 (update_panics_iff None (Some Toy.good_header) Toy.world0)).
    right. left. reflexivity.
  - apply (proj2 (update_panics_iff (Some 7%positive) (Some Toy.good_header) Toy.world0)).
    right. right. exists 7%positive. split; [reflexivity | vm_compute; reflexivity].
Defined.

Lemma non_header_never_updates_witness :
  run Toy.client0 (DuplicateSignaturesPtr (Some Toy.forged_one)) Toy.world0
    = Returns
        (None, None,
         Some (Wrap (Wrap (root_error ErrInvalidSignature) "signature verification failed")
                 "failed to verify signature one"))
        (with_calls Toy.statement_calls Toy.world0)
  ∧ (None : pointer) = None ∧ (None : pointer) = None
  ∧ clientStates (with_calls Toy.statement_calls Toy.world0) = clientStates Toy.world0
  ∧ consensusStates (with_calls Toy.statement_calls Toy.world0)
    = consensusStates Toy.world0.
Proof.
  split; [vm_compute; reflexivity|].
  apply (non_header_never_updates (H := Toy.collaborators) Toy.client0 tt tt tt
           (DuplicateSignaturesPtr (Some Toy.forged_one)) Toy.world0 None None
           (Some (Wrap (Wrap (root_error ErrInvalidSignature)
                          "signature verification failed")
                    "failed to verify signature one")));
    [intros hp E; discriminate E | vm_compute; reflexivity].
Defined.

End CoverageExamples.
